(** * qsdl: strategy configuration -> AST -> JavaScript

    A shallow embedding of the two stages of [codegen-python]:

    - [src/json_to_ast.py]  (class [StrategyTransformer], the Normalizer),
    - [src/ast_to_code.py]  (class [JavaScriptGenerator], the Emitter),
    - the sample configuration of [main.py].

    Both stages work on untyped Python values ([Dict[str, Any]]), so the
    embedding keeps them untyped: a value is a [json] tree, every Python
    operation that can raise returns a [Result], and the order of
    evaluation of the source is kept so that the exception raised is the
    one Python raises.

    Limits of the model: JSON numbers are integers (Python [int]); a
    non-integer number (Python [float]) is not represented.  Strings are
    sequences of ASCII characters: [upper] and the iteration over a [str]
    work per byte. *)

From Stdlib Require Import ZArith String Ascii List Bool Lia DecimalString.
Import ListNotations.
Local Open Scope list_scope.
Local Open Scope string_scope.

(** ** Python values *)

Unset Elimination Schemes.
Inductive json : Type :=
| JNull                                   (* None *)
| JBool (b : bool)                        (* True / False *)
| JNum (n : Z)                            (* int *)
| JStr (s : string)                       (* str *)
| JArr (items : list json)                (* list *)
| JObj (fields : list (string * json)).   (* dict with str keys, in insertion order *)
Set Elimination Schemes.

(** Exceptions the two stages can raise. *)
Inductive exn : Type := KeyError | TypeError | AttributeError | IndexError.

Inductive Result (A : Type) : Type :=
| Ok (a : A)
| Raise (e : exn).
Arguments Ok {A} a.
Arguments Raise {A} e.

Definition bind {A B} (r : Result A) (k : A -> Result B) : Result B :=
  match r with
  | Ok a => k a
  | Raise e => Raise e
  end.

Notation "x <- e ;; k" := (bind e (fun x => k))
  (at level 61, e at next level, right associativity).

Fixpoint mapM {A B} (f : A -> Result B) (l : list A) : Result (list B) :=
  match l with
  | [] => Ok []
  | x :: xs => y <- f x ;; ys <- mapM f xs ;; Ok (y :: ys)
  end.

(** ** The Python operations the source uses *)

Module Py.

(** [bool(v)], as tested by [if v:]. *)
Definition truthy (v : json) : bool :=
  match v with
  | JNull => false
  | JBool b => b
  | JNum n => negb (n =? 0)%Z
  | JStr s => negb (s =? "")
  | JArr items => match items with [] => false | _ => true end
  | JObj fields => match fields with [] => false | _ => true end
  end.

(** Whether [hash(v)] is defined: lists and dicts are unhashable. *)
Definition hashable (v : json) : bool :=
  match v with
  | JArr _ | JObj _ => false
  | _ => true
  end.

(** [v == s] for a string literal [s]. *)
Definition str_eq (v : json) (s : string) : bool :=
  match v with
  | JStr t => (t =? s)
  | _ => false
  end.

(** [a == b] on hashable values; [True == 1] and [False == 0]. *)
Definition key_eq (a b : json) : bool :=
  match a, b with
  | JNull, JNull => true
  | JBool x, JBool y => Bool.eqb x y
  | JBool x, JNum n | JNum n, JBool x => ((if x then 1 else 0) =? n)%Z
  | JNum m, JNum n => (m =? n)%Z
  | JStr s, JStr t => (s =? t)
  | _, _ => false
  end.

(** Lookup of a key in the fields of a dict. *)
Fixpoint lookup (key : string) (fields : list (string * json)) : option json :=
  match fields with
  | [] => None
  | (k, v) :: rest => if (k =? key) then Some v else lookup key rest
  end.

(** [lookup] with a function applied to the value found, in one pass:
    the form structural recursion over [json] goes through. *)
Definition find {A} (f : json -> A) (key : string)
  : list (string * json) -> option A :=
  fix go fields :=
    match fields with
    | [] => None
    | (k, v) :: rest => if (k =? key) then Some (f v) else go rest
    end.

(** [fields.get(key, dflt)] on the fields of a dict. *)
Definition lookup_default (fields : list (string * json)) (key : string)
           (dflt : json) : json :=
  match lookup key fields with
  | Some v => v
  | None => dflt
  end.

(** [d.get(key, dflt)]: only a dict has [.get]. *)
Definition get (d : json) (key : string) (dflt : json) : Result json :=
  match d with
  | JObj fields => Ok (lookup_default fields key dflt)
  | _ => Raise AttributeError
  end.

(** [d[key]] with a str key. *)
Definition getitem (d : json) (key : string) : Result json :=
  match d with
  | JObj fields =>
      match lookup key fields with
      | Some v => Ok v
      | None => Raise KeyError
      end
  | _ => Raise TypeError
  end.

(** [v[0]]. *)
Definition first (v : json) : Result json :=
  match v with
  | JArr (x :: _) => Ok x
  | JArr [] => Raise IndexError
  | JStr (String c _) => Ok (JStr (String c ""))
  | JStr "" => Raise IndexError
  | JObj _ => Raise KeyError
  | _ => Raise TypeError
  end.

Fixpoint chars (s : string) : list json :=
  match s with
  | "" => []
  | String c rest => JStr (String c "") :: chars rest
  end.

(** The values [for x in v] ranges over. *)
Definition iter (v : json) : Result (list json) :=
  match v with
  | JArr items => Ok items
  | JObj fields => Ok (map (fun kv => JStr (fst kv)) fields)
  | JStr s => Ok (chars s)
  | _ => Raise TypeError
  end.

Fixpoint is_substring (needle hay : string) : bool :=
  String.prefix needle hay ||
  match hay with
  | "" => false
  | String _ rest => is_substring needle rest
  end.

(** [key in v] for a string literal [key]. *)
Definition contains (key : string) (v : json) : Result bool :=
  match v with
  | JObj fields =>
      Ok (match lookup key fields with Some _ => true | None => false end)
  | JArr items => Ok (existsb (fun x => str_eq x key) items)
  | JStr s => Ok (is_substring key s)
  | _ => Raise TypeError
  end.

Definition upper_char (c : ascii) : ascii :=
  let n := nat_of_ascii c in
  if ((97 <=? n) && (n <=? 122))%nat then ascii_of_nat (n - 32) else c.

Fixpoint upper_str (s : string) : string :=
  match s with
  | "" => ""
  | String c rest => String (upper_char c) (upper_str rest)
  end.

(** [v.upper()]: only a str has [.upper]. *)
Definition upper (v : json) : Result json :=
  match v with
  | JStr s => Ok (JStr (upper_str s))
  | _ => Raise AttributeError
  end.

Fixpoint remove_char (c : ascii) (s : string) : string :=
  match s with
  | "" => ""
  | String d rest =>
      if Ascii.eqb d c then remove_char c rest
      else String d (remove_char c rest)
  end.

(** [v.replace(c, '')] for a one-character [c]. *)
Definition replace_with_empty (v : json) (c : ascii) : Result string :=
  match v with
  | JStr s => Ok (remove_char c s)
  | _ => Raise AttributeError
  end.

(** [sep.join(parts)]. *)
Fixpoint join (sep : string) (parts : list string) : string :=
  match parts with
  | [] => ""
  | [p] => p
  | p :: rest => p ++ sep ++ join sep rest
  end.

(** [l.append(x)], as a new list. *)
Definition append {A} (l : list A) (x : A) : list A := (l ++ [x])%list.

(** [s * n]. *)
Definition repeat_str (s : string) (n : Z) : string :=
  String.concat "" (repeat s (Z.to_nat n)).

Definition str_int (n : Z) : string :=
  NilZero.string_of_int (Z.to_int n).

Definition squote : ascii := ascii_of_nat 39.
Definition dquote : ascii := ascii_of_nat 34.
Definition backslash : ascii := ascii_of_nat 92.

Fixpoint has_char (c : ascii) (s : string) : bool :=
  match s with
  | "" => false
  | String d rest => Ascii.eqb d c || has_char c rest
  end.

Definition hex_digit (n : nat) : ascii :=
  if (n <? 10)%nat then ascii_of_nat (48 + n) else ascii_of_nat (87 + n).

Definition escape_char (quote c : ascii) : string :=
  let n := nat_of_ascii c in
  if Ascii.eqb c backslash then String backslash (String backslash "")
  else if Ascii.eqb c quote then String backslash (String c "")
  else if (n =? 10)%nat then String backslash "n"
  else if (n =? 13)%nat then String backslash "r"
  else if (n =? 9)%nat then String backslash "t"
  else if ((n <? 32) || (n =? 127))%nat then
    String backslash
      (String "x" (String (hex_digit (n / 16)) (String (hex_digit (n mod 16)) "")))
  else String c "".

Fixpoint escape (quote : ascii) (s : string) : string :=
  match s with
  | "" => ""
  | String c rest => escape_char quote c ++ escape quote rest
  end.

(** [repr(s)] of a str: single quotes, unless the text has a single
    quote and no double quote. *)
Definition repr_str (s : string) : string :=
  let quote :=
    if has_char squote s && negb (has_char dquote s) then dquote else squote in
  String quote (escape quote s) ++ String quote "".

(** [repr(v)]. *)
Fixpoint repr (v : json) : string :=
  match v with
  | JNull => "None"
  | JBool true => "True"
  | JBool false => "False"
  | JNum n => str_int n
  | JStr s => repr_str s
  | JArr items => "[" ++ join ", " (map repr items) ++ "]"
  | JObj fields =>
      "{" ++ join ", " (map (fun kv => repr_str (fst kv) ++ ": " ++ repr (snd kv)) fields)
          ++ "}"
  end.

(** [str(v)], also what an f-string interpolates. *)
Definition str (v : json) : string :=
  match v with
  | JStr s => s
  | _ => repr v
  end.

(** A Python dict keyed by hashable values (the id maps of the
    Normalizer), in insertion order. *)
Definition dict : Type := list (json * json).

Fixpoint dict_get (d : dict) (key : json) : option json :=
  match d with
  | [] => None
  | (k, v) :: rest => if key_eq k key then Some v else dict_get rest key
  end.

(** [d[key] = v]: an equal key keeps its place and takes the new value. *)
Fixpoint dict_set (d : dict) (key v : json) : dict :=
  match d with
  | [] => [(key, v)]
  | (k, w) :: rest =>
      if key_eq k key then (k, v) :: rest else (k, w) :: dict_set rest key v
  end.

(** [d.get(key)]: [None] when the key is missing; hashing the key can raise. *)
Definition dict_get_none (d : dict) (key : json) : Result json :=
  if hashable key then
    Ok (match dict_get d key with Some v => v | None => JNull end)
  else Raise TypeError.

End Py.

(** ** [json_to_ast.py]: the Normalizer *)

Module JsonToAst.
Import Py.

(** [class NodeType(Enum)] and its [.value]. *)
Module NodeType.
Inductive t : Type :=
| TRADING_STRATEGY | INDICATOR_DEF | RULE | LOGICAL_EXPR | COMPARISON
| CROSSING_EVENT | PRICE_REF | INDICATOR_REF | LITERAL | ORDER_ACTION
| POSITION.

Definition value (n : t) : json :=
  JStr match n with
       | TRADING_STRATEGY => "TradingStrategy"
       | INDICATOR_DEF => "IndicatorDefinition"
       | RULE => "Rule"
       | LOGICAL_EXPR => "LogicalExpression"
       | COMPARISON => "Comparison"
       | CROSSING_EVENT => "CrossingEvent"
       | PRICE_REF => "PriceReference"
       | INDICATOR_REF => "IndicatorReference"
       | LITERAL => "Literal"
       | ORDER_ACTION => "OrderAction"
       | POSITION => "Position"
       end.
End NodeType.

(** [class ComparisonOp(Enum)] and its [.value]. *)
Module ComparisonOp.
Inductive t : Type :=
| LESS_THAN | GREATER_THAN | LESS_THAN_OR_EQUAL | GREATER_THAN_OR_EQUAL
| EQUALS | NOT_EQUALS.

Definition value (op : t) : json :=
  JStr match op with
       | LESS_THAN => "LESS_THAN"
       | GREATER_THAN => "GREATER_THAN"
       | LESS_THAN_OR_EQUAL => "LESS_THAN_OR_EQUAL"
       | GREATER_THAN_OR_EQUAL => "GREATER_THAN_OR_EQUAL"
       | EQUALS => "EQUALS"
       | NOT_EQUALS => "NOT_EQUALS"
       end.
End ComparisonOp.

(** [class LogicalOp(Enum)] and its [.value]. *)
Module LogicalOp.
Inductive t : Type := AND | OR.

Definition value (op : t) : json :=
  JStr match op with AND => "AND" | OR => "OR" end.
End LogicalOp.

Import ComparisonOp.

(** The dict literals the transformer builds, keys in source order. *)
Definition literal_node (v : json) : json :=
  JObj [("type", NodeType.value NodeType.LITERAL); ("value", v);
        ("dataType", JStr "number")].

Definition price_ref_node (symbol : json) : json :=
  JObj [("type", NodeType.value NodeType.PRICE_REF); ("symbol", symbol)].

Definition indicator_ref_node (name : json) : json :=
  JObj [("type", NodeType.value NodeType.INDICATOR_REF); ("name", name)].

Definition comparison_node (left : json) (op : ComparisonOp.t) (right : json) : json :=
  JObj [("type", NodeType.value NodeType.COMPARISON); ("left", left);
        ("operator", ComparisonOp.value op); ("right", right)].

Definition logical_node (op : LogicalOp.t) (operands : list json) : json :=
  JObj [("type", NodeType.value NodeType.LOGICAL_EXPR);
        ("operator", LogicalOp.value op); ("operands", JArr operands)].

Definition rule_node (name condition action : json) : json :=
  JObj [("type", NodeType.value NodeType.RULE); ("name", name);
        ("condition", condition); ("action", action)].

(** The "always true" default: [1 EQUALS 1]. *)
Definition always_true : json :=
  comparison_node (literal_node (JNum 1)) EQUALS (literal_node (JNum 1)).

(** The [op_map] literal; the source writes the same table in
    [_transform_price_comparison], [_transform_indicator_comparison]
    and [_transform_indicator_event]. *)
Definition op_map : list (string * ComparisonOp.t) :=
  [("<", LESS_THAN); (">", GREATER_THAN); ("<=", LESS_THAN_OR_EQUAL);
   (">=", GREATER_THAN_OR_EQUAL); ("==", EQUALS); ("!=", NOT_EQUALS)].

Fixpoint op_map_find (table : list (string * ComparisonOp.t)) (operator : json)
  : option ComparisonOp.t :=
  match table with
  | [] => None
  | (k, op) :: rest => if str_eq operator k then Some op else op_map_find rest operator
  end.

(** [op_map.get(operator, dflt)]: the key is hashed first. *)
Definition op_map_get (operator : json) (dflt : ComparisonOp.t)
  : Result ComparisonOp.t :=
  if hashable operator then
    Ok (match op_map_find op_map operator with Some op => op | None => dflt end)
  else Raise TypeError.

(** The attributes [__init__] sets. *)
Record StrategyTransformer : Type := {
  strategy : json;
  symbol : json;
  indicators_map : Py.dict;
  actions_map : Py.dict
}.

(** [{item['id']: item for item in items}]. *)
Fixpoint id_map (items : list json) (acc : Py.dict) : Result Py.dict :=
  match items with
  | [] => Ok acc
  | item :: rest =>
      key <- getitem item "id" ;;
      if hashable key then id_map rest (dict_set acc key item)
      else Raise TypeError
  end.

Definition _build_indicators_map (strategy : json) : Result Py.dict :=
  indicators <- get strategy "indicators" (JArr []) ;;
  items <- iter indicators ;;
  id_map items [].

Definition _build_actions_map (strategy : json) : Result Py.dict :=
  actions <- get strategy "actions" (JArr []) ;;
  items <- iter actions ;;
  id_map items [].

Definition __init__ (strategy_json : json) : Result StrategyTransformer :=
  symbols <- get strategy_json "symbols" JNull ;;
  symbol <- (if truthy symbols
             then (s <- getitem strategy_json "symbols" ;; first s)
             else Ok (JStr "UNKNOWN")) ;;
  indicators_map <- _build_indicators_map strategy_json ;;
  actions_map <- _build_actions_map strategy_json ;;
  Ok {| strategy := strategy_json; symbol := symbol;
        indicators_map := indicators_map; actions_map := actions_map |}.

Definition transform_indicator (indicator : json) : Result json :=
  name <- getitem indicator "id" ;;
  ty <- getitem indicator "type" ;;
  indicator_type <- upper ty ;;
  params <- get indicator "params" (JObj []) ;;
  Ok (JObj [("type", NodeType.value NodeType.INDICATOR_DEF); ("name", name);
            ("indicator_type", indicator_type); ("params", params)]).

(** The loop of [_transform_indicators], [result.append] by [result.append]. *)
Fixpoint transform_indicators_loop (items : list json) (result : list json)
  : Result (list json) :=
  match items with
  | [] => Ok result
  | indicator :: rest =>
      node <- transform_indicator indicator ;;
      transform_indicators_loop rest (append result node)
  end.

Definition _transform_indicators (self : StrategyTransformer) : Result json :=
  indicators <- get (strategy self) "indicators" (JArr []) ;;
  items <- iter indicators ;;
  result <- transform_indicators_loop items [] ;;
  Ok (JArr result).

Definition _transform_price_condition (self : StrategyTransformer) (params : json)
  : Result json :=
  event_type <- get params "event_type" (JStr "") ;;
  threshold <- get params "threshold" (JNum 0) ;;
  direction <- get params "direction" (JStr "") ;;
  if str_eq event_type "cross" then
    let op := if str_eq direction "below" then LESS_THAN
              else if str_eq direction "above" then GREATER_THAN
              else EQUALS in
    Ok (comparison_node (price_ref_node (symbol self)) op (literal_node threshold))
  else
    let op := if str_eq event_type "above" then GREATER_THAN
              else if str_eq event_type "below" then LESS_THAN
              else EQUALS in
    Ok (comparison_node (price_ref_node (symbol self)) op (literal_node threshold)).

Definition _transform_price_comparison (self : StrategyTransformer) (params : json)
  : Result json :=
  operator <- get params "operator" (JStr ">") ;;
  value <- get params "value" (JNum 0) ;;
  op <- op_map_get operator GREATER_THAN ;;
  Ok (comparison_node (price_ref_node (symbol self)) op (literal_node value)).

Definition _transform_indicator_comparison (self : StrategyTransformer) (params : json)
  : Result json :=
  indicator1 <- get params "indicator1" (JStr "") ;;
  indicator2 <- get params "indicator2" (JStr "") ;;
  operator <- get params "operator" (JStr ">") ;;
  value <- get params "value" JNull ;;
  let left := indicator_ref_node indicator1 in
  let right :=
    if truthy indicator2 then indicator_ref_node indicator2
    else match value with
         | JNull => literal_node (JNum 0)
         | _ => literal_node value
         end in
  op <- op_map_get operator GREATER_THAN ;;
  Ok (comparison_node left op right).

Definition _transform_indicator_event (self : StrategyTransformer) (params : json)
  : Result json :=
  indicator <- get params "indicator" (JStr "") ;;
  event_type <- get params "event_type" (JStr "") ;;
  threshold <- get params "threshold" (JNum 0) ;;
  direction <- get params "direction" (JStr "") ;;
  operator <- get params "operator" JNull ;;
  op <- (if str_eq event_type "cross" then
           Ok (if str_eq direction "above" then GREATER_THAN
               else if str_eq direction "below" then LESS_THAN
               else EQUALS)
         else if str_eq event_type "above" || str_eq direction "above" then
           Ok GREATER_THAN
         else if str_eq event_type "below" || str_eq direction "below" then
           Ok LESS_THAN
         else if truthy operator then op_map_get operator GREATER_THAN
         else Ok GREATER_THAN) ;;
  Ok (comparison_node (indicator_ref_node indicator) op (literal_node threshold)).

(** [operands[0]] when [len(operands) == 1], the LogicalExpression
    otherwise: the tail of both branches of
    [_transform_trigger_conditions]. *)
Definition group (op : LogicalOp.t) (operands : list json) : json :=
  match operands with
  | [operand] => operand
  | _ => logical_node op operands
  end.

(** [[lower(cond) for cond in members]].  Iterating a dict or a str
    yields str members, on which [lower] (always [_transform_condition])
    raises AttributeError at [condition.get]; see
    [lower_members_comprehension]. *)
Definition lower_members (lower : json -> Result json) (members : json)
  : Result (list json) :=
  match members with
  | JArr items => mapM lower items
  | JObj [] | JStr "" => Ok []
  | JObj _ | JStr _ => Raise AttributeError
  | _ => Raise TypeError
  end.

(** [_transform_condition].  Its two last [elif] call
    [_transform_trigger_conditions(condition)] on the same dict, which
    under their guards takes its AND, respectively OR, branch: that
    branch is written here, so that the recursion is on the members;
    see [_transform_condition_nested]. *)
Fixpoint _transform_condition (self : StrategyTransformer) (condition : json)
  : Result json :=
  match condition with
  | JObj fields =>
      let cond_type := lookup_default fields "type" (JStr "") in
      let params := lookup_default fields "params" (JObj []) in
      if str_eq cond_type "price_move" then
        _transform_price_condition self params
      else if str_eq cond_type "indicator_comparison" then
        _transform_indicator_comparison self params
      else if str_eq cond_type "indicator_event" then
        _transform_indicator_event self params
      else if str_eq cond_type "price_comparison" then
        _transform_price_comparison self params
      else
        match find (lower_members (_transform_condition self)) "and" fields with
        | Some lowered =>
            operands <- lowered ;; Ok (group LogicalOp.AND operands)
        | None =>
            match find (lower_members (_transform_condition self)) "or" fields with
            | Some lowered =>
                operands <- lowered ;; Ok (group LogicalOp.OR operands)
            | None => Ok always_true
            end
        end
  | _ => Raise AttributeError
  end.

(** [key not in ['actions', 'id', 'name']]. *)
Definition not_reserved (key : json) : bool :=
  negb (str_eq key "actions" || str_eq key "id" || str_eq key "name").

Definition _transform_trigger_conditions (self : StrategyTransformer) (trigger : json)
  : Result json :=
  has_and <- contains "and" trigger ;;
  if has_and then
    members <- getitem trigger "and" ;;
    operands <- lower_members (_transform_condition self) members ;;
    Ok (group LogicalOp.AND operands)
  else
    has_or <- contains "or" trigger ;;
    if has_or then
      members <- getitem trigger "or" ;;
      operands <- lower_members (_transform_condition self) members ;;
      Ok (group LogicalOp.OR operands)
    else
      keys <- iter trigger ;;
      if existsb not_reserved keys then _transform_condition self trigger
      else Ok always_true.

Definition _transform_action (self : StrategyTransformer) (action : json)
  : Result json :=
  action_type <- get action "type" (JStr "") ;;
  direction <- get action "direction" (JStr "") ;;
  act_type <- (if str_eq action_type "entry" then Ok (JStr "OPEN_POSITION")
               else if str_eq action_type "exit" then Ok (JStr "CLOSE_POSITION")
               else upper action_type) ;;
  position_direction <- (if truthy direction then upper direction
                         else Ok (JStr "LONG")) ;;
  order <- get action "order" (JObj []) ;;
  position_symbol <- get order "symbol" (symbol self) ;;
  order' <- get action "order" (JObj []) ;;
  order_type <- get order' "type" (JStr "market") ;;
  position_order_type <- upper order_type ;;
  let position :=
    [("type", NodeType.value NodeType.POSITION);
     ("direction", position_direction);
     ("symbol", position_symbol);
     ("order_type", position_order_type)] in
  position <- (if str_eq action_type "entry" then
                 max_size <- get action "max_position_size" (JNum 1) ;;
                 Ok (append position ("max_size", max_size))
               else if str_eq action_type "exit" then
                 percent <- get action "percent_of_position" (JNum 100) ;;
                 Ok (append position ("percent", percent))
               else Ok position) ;;
  Ok (JObj [("type", NodeType.value NodeType.ORDER_ACTION);
            ("action_type", act_type);
            ("position", JObj position)]).

(** [f"{action_id}_rule" if action_id else f"rule_{i}"]. *)
Definition rule_name (i : nat) (action_id : json) : string :=
  if truthy action_id then str action_id ++ "_rule"
  else "rule_" ++ str_int (Z.of_nat i).

(** The inner loop of [_transform_triggers] over the action ids of the
    trigger of index [i]. *)
Fixpoint transform_actions_loop (self : StrategyTransformer) (i : nat)
         (condition : json) (action_ids : list json) (result : list json)
  : Result (list json) :=
  match action_ids with
  | [] => Ok result
  | action_id :: rest =>
      action <- dict_get_none (actions_map self) action_id ;;
      if truthy action then
        let rule_name := rule_name i action_id in
        action_node <- _transform_action self action ;;
        transform_actions_loop self i condition rest
          (append result (rule_node (JStr rule_name) condition action_node))
      else transform_actions_loop self i condition rest result
  end.

(** The outer loop of [_transform_triggers] over [enumerate(triggers)]. *)
Fixpoint transform_triggers_loop (self : StrategyTransformer) (i : nat)
         (triggers : list json) (result : list json) : Result (list json) :=
  match triggers with
  | [] => Ok result
  | trigger :: rest =>
      condition <- _transform_trigger_conditions self trigger ;;
      actions <- get trigger "actions" (JArr []) ;;
      action_ids <- iter actions ;;
      result <- transform_actions_loop self i condition action_ids result ;;
      transform_triggers_loop self (S i) rest result
  end.

Definition _transform_triggers (self : StrategyTransformer) : Result json :=
  triggers <- get (strategy self) "triggers" (JArr []) ;;
  items <- iter triggers ;;
  result <- transform_triggers_loop self 0 items [] ;;
  Ok (JArr result).

Definition transform (self : StrategyTransformer) : Result json :=
  indicators <- _transform_indicators self ;;
  rules <- _transform_triggers self ;;
  Ok (JObj [("type", NodeType.value NodeType.TRADING_STRATEGY);
            ("symbol", symbol self);
            ("indicators", indicators);
            ("rules", rules)]).

Definition transform_strategy (original_json : json) : Result json :=
  transformer <- __init__ original_json ;;
  transform transformer.

End JsonToAst.

(** ** [ast_to_code.py]: the Emitter *)

Module AstToCode.
Import Py.

(** The attributes of a [JavaScriptGenerator]; [indent_level] is the
    one [generate] mutates. *)
Record JavaScriptGenerator : Type := {
  ast : json;
  indent_level : Z;
  indent_str : string
}.

Definition __init__ (ast : json) : JavaScriptGenerator :=
  {| ast := ast; indent_level := 0; indent_str := "  " |}.

Definition indent (self : JavaScriptGenerator) : string :=
  repeat_str (indent_str self) (indent_level self).

(** [self.indent_level += d]. *)
Definition add_indent (d : Z) (self : JavaScriptGenerator) : JavaScriptGenerator :=
  {| ast := ast self; indent_level := indent_level self + d;
     indent_str := indent_str self |}.

(** The dict literal indexed by [generate_comparison_operator]. *)
Definition operator_table : list (string * string) :=
  [("LESS_THAN", "<"); ("GREATER_THAN", ">"); ("LESS_THAN_OR_EQUAL", "<=");
   ("GREATER_THAN_OR_EQUAL", ">="); ("EQUALS", "==="); ("NOT_EQUALS", "!==")].

Fixpoint table_find (table : list (string * string)) (op : json) : option string :=
  match table with
  | [] => None
  | (k, v) :: rest => if str_eq op k then Some v else table_find rest op
  end.

(** [{...}[op]]: the key is hashed, then looked up. *)
Definition generate_comparison_operator (op : json) : Result string :=
  if hashable op then
    match table_find operator_table op with
    | Some text => Ok text
    | None => Raise KeyError
    end
  else Raise TypeError.

Definition get_value_js (val : json) : Result string :=
  ty <- getitem val "type" ;;
  if str_eq ty "Literal" then
    v <- getitem val "value" ;; Ok (str v)
  else if str_eq ty "PriceReference" then Ok "price"
  else if str_eq ty "IndicatorReference" then
    name <- getitem val "name" ;;
    replace_with_empty name "_"%char
  else Ok "null".

(** [[f"({render(c)})" for c in operands]].  Iterating a dict or a str
    yields str operands, on which [render] (always
    [generate_condition_js]) raises TypeError at [condition['type']]. *)
Definition render_operands (render : json -> Result string) (operands : json)
  : Result (list string) :=
  match operands with
  | JArr items => mapM (fun c => text <- render c ;; Ok ("(" ++ text ++ ")")) items
  | JObj [] | JStr "" => Ok []
  | _ => Raise TypeError
  end.

Fixpoint generate_condition_js (condition : json) : Result string :=
  match condition with
  | JObj fields =>
      ty <- getitem condition "type" ;;
      if str_eq ty "LogicalExpression" then
        operator <- getitem condition "operator" ;;
        let op := if str_eq operator "AND" then " && " else " || " in
        match find (render_operands generate_condition_js) "operands" fields with
        | Some rendered => parts <- rendered ;; Ok (join op parts)
        | None => Raise KeyError
        end
      else if str_eq ty "Comparison" then
        l <- getitem condition "left" ;;
        left <- get_value_js l ;;
        r <- getitem condition "right" ;;
        right <- get_value_js r ;;
        o <- getitem condition "operator" ;;
        op <- generate_comparison_operator o ;;
        Ok (left ++ " " ++ op ++ " " ++ right)
      else Ok "true"
  | _ => Raise TypeError
  end.

(** The body of the [for rule in self.ast['rules']] loop: the lines
    appended to [code], and the generator as the iteration leaves it
    (also when it raises). *)
Definition generate_rule (self : JavaScriptGenerator) (rule : json) (code : list string)
  : Result (list string) * JavaScriptGenerator :=
  match getitem rule "name" with
  | Raise e => (Raise e, self)
  | Ok name =>
      if str_eq name "entry_long_rule" then
        let code := append code (indent self ++ "checkEntry(price, rsi14, ema50, ema200) {") in
        let self := add_indent 1 self in
        match (c <- getitem rule "condition" ;; generate_condition_js c) with
        | Raise e => (Raise e, self)
        | Ok conditions =>
            let code := append code (indent self ++ "return " ++ conditions ++ ";") in
            let self := add_indent (-1) self in
            let code := append code (indent self ++ "}") in
            let code := append code "" in
            (Ok code, self)
        end
      else if str_eq name "exit_long_rule" then
        let code := append code (indent self ++ "checkExit(ema50, ema200) {") in
        let self := add_indent 1 self in
        match (c <- getitem rule "condition" ;; generate_condition_js c) with
        | Raise e => (Raise e, self)
        | Ok conditions =>
            let code := append code (indent self ++ "return " ++ conditions ++ ";") in
            let self := add_indent (-1) self in
            let code := append code (indent self ++ "}") in
            (Ok code, self)
        end
      else (Ok code, self)
  end.

Fixpoint generate_rules (self : JavaScriptGenerator) (rules : list json)
         (code : list string) : Result (list string) * JavaScriptGenerator :=
  match rules with
  | [] => (Ok code, self)
  | rule :: rest =>
      match generate_rule self rule code with
      | (Raise e, self) => (Raise e, self)
      | (Ok code, self) => generate_rules self rest code
      end
  end.

Definition newline : string := String (ascii_of_nat 10) "".

(** [generate]: the text returned, and the generator as the call
    leaves it. *)
Definition generate (self : JavaScriptGenerator)
  : Result string * JavaScriptGenerator :=
  let code := ["// Generated JavaScript Trading Strategy"] in
  match getitem (ast self) "symbol" with
  | Raise e => (Raise e, self)
  | Ok symbol =>
      let code := append code ("class " ++ str symbol ++ "Strategy {") in
      let self := add_indent 1 self in
      match (rules <- getitem (ast self) "rules" ;; iter rules) with
      | Raise e => (Raise e, self)
      | Ok rules =>
          match generate_rules self rules code with
          | (Raise e, self) => (Raise e, self)
          | (Ok code, self) =>
              let self := add_indent (-1) self in
              let code := append code "}" in
              (Ok (join newline code), self)
          end
      end
  end.

End AstToCode.

(** ** [main.py]: the sample configuration *)

Module Main.

Definition indicator (id type : string) (period : Z) : json :=
  JObj [("id", JStr id); ("type", JStr type); ("symbol", JStr "TSLA");
        ("params", JObj [("period", JNum period)])].

Definition market_order : json :=
  JObj [("symbol", JStr "TSLA"); ("type", JStr "market"); ("tif", JStr "day")].

Definition entry_trigger : json :=
  JObj [("and", JArr [
           JObj [("type", JStr "price_move");
                 ("params", JObj [("event_type", JStr "cross");
                                  ("threshold", JNum 430);
                                  ("direction", JStr "below")])];
           JObj [("type", JStr "indicator_comparison");
                 ("params", JObj [("indicator1", JStr "ema_50");
                                  ("indicator2", JStr "ema_200");
                                  ("operator", JStr ">")])];
           JObj [("type", JStr "indicator_event");
                 ("params", JObj [("indicator", JStr "rsi_14");
                                  ("event_type", JStr "cross");
                                  ("threshold", JNum 60);
                                  ("direction", JStr "above")])]]);
        ("actions", JArr [JStr "entry_long"])].

Definition exit_trigger : json :=
  JObj [("and", JArr [
           JObj [("type", JStr "indicator_comparison");
                 ("params", JObj [("indicator1", JStr "ema_50");
                                  ("indicator2", JStr "ema_200");
                                  ("operator", JStr "<")])]]);
        ("actions", JArr [JStr "exit_long"])].

Definition entry_long : json :=
  JObj [("id", JStr "entry_long"); ("type", JStr "entry");
        ("direction", JStr "long"); ("max_position_size", JNum 10);
        ("order", market_order)].

Definition exit_long : json :=
  JObj [("id", JStr "exit_long"); ("type", JStr "exit");
        ("direction", JStr "long"); ("percent_of_position", JNum 100);
        ("order", market_order)].

Definition original_strategy : json :=
  JObj [("symbols", JArr [JStr "TSLA"]);
        ("indicators", JArr [indicator "ema_50" "ema" 50;
                             indicator "ema_200" "ema" 200;
                             indicator "rsi_14" "rsi" 14]);
        ("triggers", JArr [entry_trigger; exit_trigger]);
        ("actions", JArr [entry_long; exit_long])].

End Main.

(** ** Shapes of the AST, for the statements below *)

Module Shape.
Import Py JsonToAst.

Definition is_logical (node : json) : bool :=
  match getitem node "type" with
  | Ok ty => str_eq ty "LogicalExpression"
  | Raise _ => false
  end.

Definition is_comparison (node : json) : bool :=
  match getitem node "type" with
  | Ok ty => str_eq ty "Comparison"
  | Raise _ => false
  end.

(** The operands of a LogicalExpression node, [[]] for any other value. *)
Definition operands_of (node : json) : list json :=
  match getitem node "operands" with
  | Ok (JArr operands) => operands
  | _ => []
  end.

Definition all_operands (p : json -> bool) (operands : json) : bool :=
  match operands with
  | JArr items => forallb p items
  | _ => true
  end.

(** [p] holds at every node of an expression tree: at the root and,
    below a LogicalExpression node, at every node of its operands. *)
Fixpoint every_node (p : json -> bool) (e : json) : bool :=
  p e &&
  match e with
  | JObj fields =>
      if str_eq (lookup_default fields "type" JNull) "LogicalExpression" then
        match find (all_operands (every_node p)) "operands" fields with
        | Some b => b
        | None => true
        end
      else true
  | _ => true
  end.

(** The conditions of the rules of a StrategyAST, in order. *)
Definition conditions_of (ast : json) : list json :=
  match getitem ast "rules" with
  | Ok (JArr rules) =>
      flat_map (fun rule => match getitem rule "condition" with
                            | Ok c => [c]
                            | Raise _ => []
                            end) rules
  | _ => []
  end.

(** A LogicalExpression node has at least one operand. *)
Definition nonempty_logical (node : json) : bool :=
  negb (is_logical node) || (1 <=? length (operands_of node))%nat.

(** A LogicalExpression node does not wrap exactly one operand. *)
Definition not_unary (node : json) : bool :=
  negb (is_logical node) || negb (length (operands_of node) =? 1)%nat.

Definition has_key (key : string) (node : json) : bool :=
  match getitem node key with Ok _ => true | Raise _ => false end.

(** A value node one of the three branches of [get_value_js] takes,
    with the key that branch reads. *)
Definition handled_value (val : json) : bool :=
  match getitem val "type" with
  | Ok ty =>
      (str_eq ty "Literal" && has_key "value" val)
      || str_eq ty "PriceReference"
      || (str_eq ty "IndicatorReference" && has_key "name" val)
  | Raise _ => false
  end.

Definition operator_in_table (node : json) : bool :=
  match getitem node "operator" with
  | Ok op =>
      match AstToCode.table_find AstToCode.operator_table op with
      | Some _ => true
      | None => false
      end
  | Raise _ => false
  end.

(** A node one of the two branches of [generate_condition_js] takes,
    with the keys that branch reads; the operator of a Comparison is a
    key of the Emitter's table. *)
Definition handled_node (node : json) : bool :=
  match node with
  | JObj fields =>
      (is_logical node && has_key "operator" node
       && match lookup "operands" fields with Some (JArr _) => true | _ => false end)
      || (is_comparison node && operator_in_table node
          && match lookup "left" fields with Some l => handled_value l | None => false end
          && match lookup "right" fields with Some r => handled_value r | None => false end)
  | _ => false
  end.

(** The name of an IndicatorReference value node is a str. *)
Definition str_name (val : json) : bool :=
  match getitem val "type" with
  | Ok ty =>
      if str_eq ty "IndicatorReference" then
        match getitem val "name" with
        | Ok (JStr _) => true
        | _ => false
        end
      else true
  | Raise _ => true
  end.

Definition str_names (node : json) : bool :=
  negb (is_comparison node)
  || (match getitem node "left" with Ok l => str_name l | Raise _ => true end
      && match getitem node "right" with Ok r => str_name r | Raise _ => true end).

(** The three value nodes the Normalizer builds. *)
Inductive value_node : json -> Prop :=
| value_literal v : value_node (literal_node v)
| value_price symbol : value_node (price_ref_node symbol)
| value_indicator name : value_node (indicator_ref_node name).

(** The four [type] tags [_transform_condition] dispatches on. *)
Definition recognized_type (cond_type : json) : bool :=
  str_eq cond_type "price_move" || str_eq cond_type "indicator_comparison"
  || str_eq cond_type "indicator_event" || str_eq cond_type "price_comparison".

(** The Position of an OrderAction node carries the key. *)
Definition position_has (key : string) (action_node : json) : bool :=
  match getitem action_node "position" with
  | Ok position => has_key key position
  | Raise _ => false
  end.

(** Exactly one of [max_size] and [percent]. *)
Definition exactly_one_size_field (action_node : json) : bool :=
  xorb (position_has "max_size" action_node) (position_has "percent" action_node).

End Shape.

Import Py JsonToAst AstToCode Shape.

(** ** Expected values named in the statements below *)

(** The entry condition of the sample: a 3-operand AND. *)
Definition sample_entry_condition : json :=
  logical_node LogicalOp.AND
    [comparison_node (price_ref_node (JStr "TSLA")) ComparisonOp.LESS_THAN
                     (literal_node (JNum 430));
     comparison_node (indicator_ref_node (JStr "ema_50")) ComparisonOp.GREATER_THAN
                     (indicator_ref_node (JStr "ema_200"));
     comparison_node (indicator_ref_node (JStr "rsi_14")) ComparisonOp.GREATER_THAN
                     (literal_node (JNum 60))].

Definition sample_code : list string :=
  ["// Generated JavaScript Trading Strategy";
   "class TSLAStrategy {";
   "  checkEntry(price, rsi14, ema50, ema200) {";
   "    return (price < 430) && (ema50 > ema200) && (rsi14 > 60);";
   "  }";
   "";
   "  checkExit(ema50, ema200) {";
   "    return ema50 < ema200;";
   "  }";
   "}"].

(** The six operator tokens with the text the Emitter renders for each. *)
(** A transformer for the closed examples: no symbols, indicators or
    actions, as [__init__] builds it from [{}]. *)
Definition bare_transformer : StrategyTransformer :=
  {| strategy := JObj []; symbol := JStr "UNKNOWN";
     indicators_map := []; actions_map := [] |}.

Definition price_comparison (operator : string) (value : Z) : json :=
  JObj [("type", JStr "price_comparison");
        ("params", JObj [("operator", JStr operator); ("value", JNum value)])].

(** A trigger with both keys: two members under [and], one under [or]. *)
Definition both_keys_trigger : json :=
  JObj [("and", JArr [price_comparison "<" 1; price_comparison ">" 2]);
        ("or", JArr [price_comparison "==" 3])].

(** A configuration whose only trigger has an empty [and] list. *)
Definition empty_group_strategy : json :=
  JObj [("triggers", JArr [JObj [("and", JArr []);
                                 ("actions", JArr [JStr "entry_long"])]]);
        ("actions", JArr [JObj [("id", JStr "entry_long"); ("type", JStr "entry")]])].

(** A condition with an unrecognized [type] and a nested [and] group. *)
Definition tagged_group : json :=
  JObj [("type", JStr "unknown_type");
        ("and", JArr [price_comparison "<" 1; price_comparison ">" 2])].

(** An action that is neither an entry nor an exit. *)
Definition alert_action : json :=
  JObj [("id", JStr "notify"); ("type", JStr "alert")].

(** A configuration whose only trigger fires [alert_action]. *)
Definition alert_strategy : json :=
  JObj [("triggers", JArr [JObj [("type", JStr "price_comparison");
                                 ("params", JObj [("operator", JStr ">");
                                                  ("value", JNum 500)]);
                                 ("actions", JArr [JStr "notify"])]]);
        ("actions", JArr [alert_action])].

(** The text [generate] returns for [empty_group_strategy]. *)
Definition empty_group_code : list string :=
  ["// Generated JavaScript Trading Strategy";
   "class UNKNOWNStrategy {";
   "  checkEntry(price, rsi14, ema50, ema200) {";
   "    return ;";
   "  }";
   "";
   "}"].

Definition token_renderings : list (string * string) :=
  [("<", "<"); (">", ">"); ("<=", "<="); (">=", ">="); ("==", "===");
   ("!=", "!==")].


(** ** The rules of a strategy, as the specification words them *)

Module RulesSpec.
Import Py JsonToAst.

(** The action id is present in the action set. *)
Definition resolves (self : StrategyTransformer) (action_id : json) : bool :=
  match dict_get (actions_map self) action_id with
  | Some action => truthy action
  | None => false
  end.

(** The action ids a trigger references, in order. *)
Definition referenced_ids (trigger : json) : Result (list json) :=
  actions <- get trigger "actions" (JArr []) ;; iter actions.

(** The Rule of a referenced id that is present: named after the id,
    with the trigger's condition and the lowered action of that id. *)
Inductive rule_of (self : StrategyTransformer) (i : nat) (condition : json)
  : json -> json -> Prop :=
| rule_of_present action_id action action_node :
    dict_get (actions_map self) action_id = Some action ->
    _transform_action self action = Ok action_node ->
    rule_of self i condition action_id
            (JObj [("type", JStr "Rule");
                   ("name", JStr (if truthy action_id then str action_id ++ "_rule"
                                  else "rule_" ++ str_int (Z.of_nat i)));
                   ("condition", condition);
                   ("action", action_node)]).

(** The rules of the triggers from index [i] on: trigger after trigger,
    one Rule per referenced id that is present, in reference order, all
    with the one condition of their trigger. *)
Inductive rules_of (self : StrategyTransformer) : nat -> list json -> list json -> Prop :=
| rules_of_nil i : rules_of self i [] []
| rules_of_cons i trigger triggers condition action_ids rules_here rules_after :
    _transform_trigger_conditions self trigger = Ok condition ->
    referenced_ids trigger = Ok action_ids ->
    Forall2 (rule_of self i condition) (filter (resolves self) action_ids) rules_here ->
    rules_of self (S i) triggers rules_after ->
    rules_of self i (trigger :: triggers) (rules_here ++ rules_after)%list.

(** An entry of the map: one of the items, under a key equal to its id. *)
Definition entry_of (items : list json) (kv : json * json) : Prop :=
  In (snd kv) items
  /\ exists id, getitem (snd kv) "id" = Ok id /\ key_eq (fst kv) id = true.

End RulesSpec.

Import RulesSpec.

(** A configuration whose condition names an indicator by a number. *)
Definition numeric_indicator_strategy : json :=
  JObj [("triggers",
         JArr [JObj [("type", JStr "indicator_comparison");
                     ("params", JObj [("indicator1", JNum 5)]);
                     ("actions", JArr [JStr "entry_long"])]]);
        ("actions", JArr [JObj [("id", JStr "entry_long"); ("type", JStr "entry")]])].

(** The AST [transform_strategy] returns for the sample configuration. *)
Definition sample_ast : json :=
  match transform_strategy Main.original_strategy with
  | Ok ast => ast
  | Raise _ => JNull
  end.

(** ** The shape of a configuration [transform_strategy] indexes unguarded *)

Module Schema.
Import Py JsonToAst.

Definition is_str (v : json) : bool :=
  match v with JStr _ => true | _ => false end.

Definition list_of (wf : json -> bool) (v : json) : bool :=
  match v with JArr items => forallb wf items | _ => false end.

(** [symbols]: falsy, or a list or a str (then non-empty). *)
Definition wf_symbols (symbols : json) : bool :=
  negb (truthy symbols)
  || match symbols with JArr _ | JStr _ => true | _ => false end.

(** A dict has the key, with a hashable value. *)
Definition has_id (fields : list (string * json)) : bool :=
  match lookup "id" fields with Some id => hashable id | None => false end.

(** An indicator: a dict with an [id] and a str [type]. *)
Definition wf_indicator (indicator : json) : bool :=
  match indicator with
  | JObj fields =>
      has_id fields
      && match lookup "type" fields with Some ty => is_str ty | None => false end
  | _ => false
  end.

(** An action: a dict with an [id]; [type], a truthy [direction] and
    [order.type] are strs when present; [order] is a dict when present. *)
Definition wf_action (action : json) : bool :=
  match action with
  | JObj fields =>
      has_id fields
      && is_str (lookup_default fields "type" (JStr ""))
      && (let direction := lookup_default fields "direction" (JStr "") in
          negb (truthy direction) || is_str direction)
      && match lookup_default fields "order" (JObj []) with
         | JObj order => is_str (lookup_default order "type" (JStr "market"))
         | _ => false
         end
  | _ => false
  end.

(** [params]: a dict whose [operator], when present, is hashable. *)
Definition wf_params (params : json) : bool :=
  match params with
  | JObj fields => hashable (lookup_default fields "operator" JNull)
  | _ => false
  end.

(** A condition: a dict; [params] is well-formed when present; the
    group under [and], else under [or], is a list of conditions. *)
Fixpoint wf_condition (condition : json) : bool :=
  match condition with
  | JObj fields =>
      wf_params (lookup_default fields "params" (JObj []))
      && match find (list_of wf_condition) "and" fields with
         | Some ok => ok
         | None =>
             match find (list_of wf_condition) "or" fields with
             | Some ok => ok
             | None => true
             end
         end
  | _ => false
  end.

(** A trigger: a condition whose [actions], when present, is a list of
    hashable ids. *)
Definition wf_trigger (trigger : json) : bool :=
  wf_condition trigger
  && match trigger with
     | JObj fields => list_of hashable (lookup_default fields "actions" (JArr []))
     | _ => false
     end.

(** A configuration: a dict; each of the four keys may be missing. *)
Definition wf_config (config : json) : bool :=
  match config with
  | JObj fields =>
      wf_symbols (lookup_default fields "symbols" JNull)
      && list_of wf_indicator (lookup_default fields "indicators" (JArr []))
      && list_of wf_trigger (lookup_default fields "triggers" (JArr []))
      && list_of wf_action (lookup_default fields "actions" (JArr []))
  | _ => false
  end.

End Schema.

Import Schema.

(** A configuration with an indicator that has no [id]. *)
Definition anonymous_indicator_strategy : json :=
  JObj [("indicators", JArr [JObj [("type", JStr "ema")]])].

(** ** Further notions, for the properties beyond the claims *)

(** The item has an id equal to [k]. *)
Definition has_id_equal (k item : json) : bool :=
  match getitem item "id" with
  | Ok id => key_eq id k
  | Raise _ => false
  end.

(** The last of the items with an id equal to [k], [found] when none. *)
Fixpoint last_with_id (k : json) (items : list json) (found : option json)
  : option json :=
  match items with
  | [] => found
  | item :: rest =>
      last_with_id k rest (if has_id_equal k item then Some item else found)
  end.

(** The item is a dict with a hashable [id]. *)
Definition dict_with_id (item : json) : bool :=
  match item with
  | JObj fields => has_id fields
  | _ => false
  end.

(** Two actions with one id, as a configuration. *)
Definition duplicate_id_strategy : json :=
  JObj [("actions",
         JArr [JObj [("id", JStr "entry_long"); ("type", JStr "entry")];
               JObj [("id", JStr "entry_long"); ("type", JStr "exit")]])].

(** The operator a direction word selects in [_transform_price_condition]. *)
Definition operator_of_word (word : json) : ComparisonOp.t :=
  if str_eq word "below" then ComparisonOp.LESS_THAN
  else if str_eq word "above" then ComparisonOp.GREATER_THAN
  else ComparisonOp.EQUALS.

(** The word that decides: [direction] for a cross, [event_type] otherwise. *)
Definition deciding_word (params : list (string * json)) : json :=
  if str_eq (lookup_default params "event_type" (JStr "")) "cross"
  then lookup_default params "direction" (JStr "")
  else lookup_default params "event_type" (JStr "").

(** The operator of a token: its [op_map] entry, GREATER_THAN without one. *)
Definition operator_of_token (operator : json) : ComparisonOp.t :=
  match op_map_find op_map operator with
  | Some op => op
  | None => ComparisonOp.GREATER_THAN
  end.

(** [_transform_indicator_event] reaches its [elif operator:] and takes it. *)
Definition operator_consulted (params : list (string * json)) : bool :=
  let event_type := lookup_default params "event_type" (JStr "") in
  let direction := lookup_default params "direction" (JStr "") in
  negb (str_eq event_type "cross")
  && negb (str_eq event_type "above" || str_eq direction "above")
  && negb (str_eq event_type "below" || str_eq direction "below")
  && truthy (lookup_default params "operator" JNull).

(** The IndicatorDefinition node of an indicator of the configuration. *)
Definition lowered_indicator (indicator node : json) : Prop :=
  exists fields id ty,
    indicator = JObj fields
    /\ lookup "id" fields = Some id
    /\ lookup "type" fields = Some (JStr ty)
    /\ node = JObj [("type", JStr "IndicatorDefinition"); ("name", id);
                    ("indicator_type", JStr (upper_str ty));
                    ("params", lookup_default fields "params" (JObj []))].

(** The symbol [__init__] resolves from the value under [symbols]. *)
Definition resolved_symbol (symbols : json) : json :=
  match symbols with
  | JArr (first :: _) => first
  | JStr (String c _) => JStr (String c "")
  | _ => JStr "UNKNOWN"
  end.

(** An action of another type, with a direction in lower case. *)
Definition hedge_action : json :=
  JObj [("id", JStr "hedge_short"); ("type", JStr "hedge"); ("direction", JStr "short")].

Definition hedge_node : json :=
  match _transform_action bare_transformer hedge_action with
  | Ok node => node
  | Raise _ => JNull
  end.

(** The rule is one [generate] emits a method for. *)
Definition emitted (rule : json) : bool :=
  match getitem rule "name" with
  | Ok name => str_eq name "entry_long_rule" || str_eq name "exit_long_rule"
  | Raise _ => false
  end.

(** The text of a class without methods. *)
Definition empty_class (symbol : json) : string :=
  join newline ["// Generated JavaScript Trading Strategy";
                "class " ++ str symbol ++ "Strategy {";
                "}"].

(** [f"({text})"]. *)
Definition parenthesized (text : string) : string := "(" ++ text ++ ")".

(** The text of a lowered group: a single member bare, several members
    parenthesized and joined. *)
Definition group_text (separator : string) (texts : list string) : string :=
  match texts with
  | [text] => text
  | _ => join separator (map parenthesized texts)
  end.

(** The ASTs of two of the configurations above. *)
Definition alert_ast : json :=
  match transform_strategy alert_strategy with
  | Ok ast => ast
  | Raise _ => JNull
  end.

Definition numeric_indicator_ast : json :=
  match transform_strategy numeric_indicator_strategy with
  | Ok ast => ast
  | Raise _ => JNull
  end.

Definition alert_rules : list json :=
  match getitem alert_ast "rules" with
  | Ok (JArr rules) => rules
  | _ => []
  end.

(** A transformer that differs from [self] in its indicator map only. *)
Definition with_indicators_map (self : StrategyTransformer) (indicators_map : Py.dict)
  : StrategyTransformer :=
  {| strategy := strategy self; symbol := symbol self;
     indicators_map := indicators_map; actions_map := actions_map self |}.

(** A trigger with a recognized [type] and an [and] list. *)
Definition typed_group_trigger : json :=
  JObj [("type", JStr "price_comparison");
        ("params", JObj [("operator", JStr "<"); ("value", JNum 1)]);
        ("and", JArr [price_comparison ">" 2; price_comparison ">" 3])].

(** ** The lowering, as the specification words it

    Section 4.1 of the specification, written as total functions from the
    configuration to the AST, with the defaults of section 7 in place of
    anything that is missing or not recognized.  Nothing here uses the
    definitions of [JsonToAst]: the nodes are written out as dicts. *)

Module Documented.
Import Py.

Definition text_of (v : json) : string :=
  match v with JStr s => s | _ => "" end.

Definition fields_of (v : json) : list (string * json) :=
  match v with JObj fields => fields | _ => [] end.

Definition items_of (v : json) : list json :=
  match v with JArr items => items | _ => [] end.

Definition literal (value : json) : json :=
  JObj [("type", JStr "Literal"); ("value", value); ("dataType", JStr "number")].

Definition price (symbol : json) : json :=
  JObj [("type", JStr "PriceReference"); ("symbol", symbol)].

Definition indicator_reference (name : json) : json :=
  JObj [("type", JStr "IndicatorReference"); ("name", name)].

Definition comparison (left : json) (operator : string) (right : json) : json :=
  JObj [("type", JStr "Comparison"); ("left", left); ("operator", JStr operator);
        ("right", right)].

(** "the always-true sentinel: a Comparison of Literal(1) EQUALS Literal(1)". *)
Definition sentinel : json :=
  comparison (literal (JNum 1)) "EQUALS" (literal (JNum 1)).

(** "wrap in LogicalExpression(AND, ...) unless exactly one member, in
    which case return it unwrapped". *)
Definition logical (operator : string) (operands : list json) : json :=
  match operands with
  | [operand] => operand
  | _ => JObj [("type", JStr "LogicalExpression"); ("operator", JStr operator);
               ("operands", JArr operands)]
  end.

(** "direction below -> LESS_THAN, above -> GREATER_THAN, else EQUALS". *)
Definition word_operator (word : json) : string :=
  if str_eq word "below" then "LESS_THAN"
  else if str_eq word "above" then "GREATER_THAN"
  else "EQUALS".

(** "an explicit operator token mapped to the enumeration; unrecognized
    tokens default to GREATER_THAN". *)
Definition token_operator (token : json) : string :=
  if str_eq token "<" then "LESS_THAN"
  else if str_eq token ">" then "GREATER_THAN"
  else if str_eq token "<=" then "LESS_THAN_OR_EQUAL"
  else if str_eq token ">=" then "GREATER_THAN_OR_EQUAL"
  else if str_eq token "==" then "EQUALS"
  else if str_eq token "!=" then "NOT_EQUALS"
  else "GREATER_THAN".

(** [price_move]: "compares a PriceReference against a numeric threshold". *)
Definition price_move (symbol : json) (params : list (string * json)) : json :=
  let event_type := lookup_default params "event_type" (JStr "") in
  let word := if str_eq event_type "cross"
              then lookup_default params "direction" (JStr "")
              else event_type in
  comparison (price symbol) (word_operator word)
             (literal (lookup_default params "threshold" (JNum 0))).

(** [price_comparison]: "PriceReference compared against a literal using
    an explicit operator token". *)
Definition price_comparison (symbol : json) (params : list (string * json)) : json :=
  comparison (price symbol)
             (token_operator (lookup_default params "operator" (JStr ">")))
             (literal (lookup_default params "value" (JNum 0))).

(** [indicator_comparison]: "right is an IndicatorReference to indicator2
    if present, else a Literal of value if present, else Literal(0)". *)
Definition indicator_comparison (params : list (string * json)) : json :=
  let indicator2 := lookup_default params "indicator2" (JStr "") in
  comparison (indicator_reference (lookup_default params "indicator1" (JStr "")))
             (token_operator (lookup_default params "operator" (JStr ">")))
             (if truthy indicator2 then indicator_reference indicator2
              else match lookup_default params "value" JNull with
                   | JNull => literal (JNum 0)
                   | value => literal value
                   end).

(** [indicator_event]: "cross with direction above/below ->
    GREATER_THAN/LESS_THAN (else EQUALS); else event_type or direction of
    above/below directly; else an explicit operator token; else default
    GREATER_THAN.  Right is a Literal of threshold (default 0)". *)
Definition indicator_event (params : list (string * json)) : json :=
  let event_type := lookup_default params "event_type" (JStr "") in
  let direction := lookup_default params "direction" (JStr "") in
  let operator := lookup_default params "operator" JNull in
  comparison (indicator_reference (lookup_default params "indicator" (JStr "")))
             (if str_eq event_type "cross" then
                if str_eq direction "above" then "GREATER_THAN"
                else if str_eq direction "below" then "LESS_THAN"
                else "EQUALS"
              else if str_eq event_type "above" || str_eq direction "above"
                   then "GREATER_THAN"
              else if str_eq event_type "below" || str_eq direction "below"
                   then "LESS_THAN"
              else if truthy operator then token_operator operator
              else "GREATER_THAN")
             (literal (lookup_default params "threshold" (JNum 0))).

Definition members_of (lower : json -> json) (members : json) : list json :=
  match members with
  | JArr items => map lower items
  | _ => []
  end.

(** Single-condition lowering: the four tags, then nested [and] / [or],
    then "anything else: the always-true sentinel". *)
Fixpoint condition (symbol : json) (c : json) : json :=
  match c with
  | JObj fields =>
      let tag := lookup_default fields "type" (JStr "") in
      let params := fields_of (lookup_default fields "params" (JObj [])) in
      if str_eq tag "price_move" then price_move symbol params
      else if str_eq tag "indicator_comparison" then indicator_comparison params
      else if str_eq tag "indicator_event" then indicator_event params
      else if str_eq tag "price_comparison" then price_comparison symbol params
      else
        match find (members_of (condition symbol)) "and" fields with
        | Some operands => logical "AND" operands
        | None =>
            match find (members_of (condition symbol)) "or" fields with
            | Some operands => logical "OR" operands
            | None => sentinel
            end
        end
  | _ => sentinel
  end.

(** Condition-tree lowering of a trigger: [and], else [or], else the
    trigger itself as a single condition. *)
Definition trigger_condition (symbol : json) (trigger : json) : json :=
  match lookup "and" (fields_of trigger) with
  | Some members => logical "AND" (members_of (condition symbol) members)
  | None =>
      match lookup "or" (fields_of trigger) with
      | Some members => logical "OR" (members_of (condition symbol) members)
      | None => condition symbol trigger
      end
  end.

(** Action lowering: "entry -> OPEN_POSITION, exit -> CLOSE_POSITION,
    otherwise the upper-cased raw type"; direction default LONG; symbol
    default the strategy symbol; order type default market, upper-cased;
    maxSize (default 1) only for entry, percent (default 100) only for
    exit. *)
Definition action (symbol : json) (a : json) : json :=
  let fields := fields_of a in
  let tag := lookup_default fields "type" (JStr "") in
  let direction := lookup_default fields "direction" (JStr "") in
  let order := fields_of (lookup_default fields "order" (JObj [])) in
  JObj [("type", JStr "OrderAction");
        ("action_type",
         JStr (if str_eq tag "entry" then "OPEN_POSITION"
               else if str_eq tag "exit" then "CLOSE_POSITION"
               else upper_str (text_of tag)));
        ("position",
         JObj ([("type", JStr "Position");
                ("direction",
                 JStr (if truthy direction then upper_str (text_of direction)
                       else "LONG"));
                ("symbol", lookup_default order "symbol" symbol);
                ("order_type",
                 JStr (upper_str (text_of (lookup_default order "type" (JStr "market")))))]
               ++ (if str_eq tag "entry"
                   then [("max_size", lookup_default fields "max_position_size" (JNum 1))]
                   else if str_eq tag "exit"
                   then [("percent", lookup_default fields "percent_of_position" (JNum 100))]
                   else []))%list)].

(** "name (derived as {action_id}_rule, or rule_{index} when the action
    id is absent)". *)
Definition name_of_rule (index : nat) (action_id : json) : string :=
  if truthy action_id then str action_id ++ "_rule"
  else "rule_" ++ str_int (Z.of_nat index).

(** "fan out one Rule per referenced action id that resolves in the
    actions set (unresolved ids are silently dropped)". *)
Definition rules_of_trigger (symbol : json) (actions : list json) (index : nat)
           (trigger : json) : list json :=
  flat_map
    (fun action_id =>
       match last_with_id action_id actions None with
       | Some a =>
           [JObj [("type", JStr "Rule");
                  ("name", JStr (name_of_rule index action_id));
                  ("condition", trigger_condition symbol trigger);
                  ("action", action symbol a)]]
       | None => []
       end)
    (items_of (lookup_default (fields_of trigger) "actions" (JArr []))).

Fixpoint rules_from (symbol : json) (actions : list json) (index : nat)
         (triggers : list json) : list json :=
  match triggers with
  | [] => []
  | trigger :: rest =>
      (rules_of_trigger symbol actions index trigger
       ++ rules_from symbol actions (S index) rest)%list
  end.

(** Indicator lowering: "kind is the configured type upper-cased; missing
    params become an empty mapping". *)
Definition indicator (i : json) : json :=
  let fields := fields_of i in
  JObj [("type", JStr "IndicatorDefinition");
        ("name", lookup_default fields "id" JNull);
        ("indicator_type", JStr (upper_str (text_of (lookup_default fields "type" JNull))));
        ("params", lookup_default fields "params" (JObj []))].

(** Symbol resolution: "first element of symbols, or a sentinel UNKNOWN
    if absent/empty". *)
Definition symbol_of (symbols : json) : json :=
  match symbols with
  | JArr (first :: _) => first
  | JStr (String c _) => JStr (String c "")
  | _ => JStr "UNKNOWN"
  end.

(** The StrategyAST of a configuration. *)
Definition strategy_ast (config : json) : json :=
  let fields := fields_of config in
  let symbol := symbol_of (lookup_default fields "symbols" JNull) in
  JObj [("type", JStr "TradingStrategy");
        ("symbol", symbol);
        ("indicators",
         JArr (map indicator (items_of (lookup_default fields "indicators" (JArr [])))));
        ("rules",
         JArr (rules_from symbol (items_of (lookup_default fields "actions" (JArr [])))
                          0 (items_of (lookup_default fields "triggers" (JArr [])))))].

End Documented.

(** A trigger that references an id that is a list. *)
Definition unhashable_reference_strategy : json :=
  JObj [("triggers", JArr [JObj [("actions", JArr [JArr [JStr "entry_long"]])]]);
        ("actions", JArr [JObj [("id", JStr "entry_long"); ("type", JStr "entry")]])].

(** The exception the loop body of [generate] raises on a rule, if any:
    at [rule['name']], or, for a rule with one of the two names, at
    [rule['condition']] or in rendering the condition. *)
Definition rule_error (rule : json) : option exn :=
  match getitem rule "name" with
  | Raise e => Some e
  | Ok name =>
      if str_eq name "entry_long_rule" || str_eq name "exit_long_rule" then
        match (c <- getitem rule "condition" ;; generate_condition_js c) with
        | Raise e => Some e
        | Ok _ => None
        end
      else None
  end.

(** * Properties *)

(** ** Induction over Python values *)

Lemma json_ind (P : json -> Prop)
      (Hnull : P JNull)
      (Hbool : forall b, P (JBool b))
      (Hnum : forall n, P (JNum n))
      (Hstr : forall s, P (JStr s))
      (Harr : forall items, Forall P items -> P (JArr items))
      (Hobj : forall fields, Forall (fun kv => P (snd kv)) fields -> P (JObj fields)) :
  forall v, P v.
Proof.
  fix IH 1.
  intros [ | b | n | s | items | fields ].
  - exact Hnull.
  - apply Hbool.
  - apply Hnum.
  - apply Hstr.
  - apply Harr. induction items as [ | x xs IHxs ]; constructor; [ apply IH | exact IHxs ].
  - apply Hobj. induction fields as [ | [k x] rest IHrest ]; constructor;
      [ apply IH | exact IHrest ].
Qed.

(** ** The error monad *)

Lemma bind_ok {A B} (r : Result A) (k : A -> Result B) (b : B) :
  bind r k = Ok b -> exists a, r = Ok a /\ k a = Ok b.
Proof.
  destruct r as [a | e]; simpl; intros H; [ eauto | discriminate ].
Qed.

Lemma mapM_total {A B} (f : A -> Result B) (l : list A) :
  Forall (fun x => exists y, f x = Ok y) l -> exists l', mapM f l = Ok l'.
Proof.
  induction 1 as [ | x xs [y Hy] _ [ys Hys] ]; simpl.
  - eauto.
  - rewrite Hy, Hys. simpl. eauto.
Qed.

(** ** Lookups *)

Lemma find_lookup {A} (f : json -> A) key fields :
  find f key fields = option_map f (lookup key fields).
Proof.
  induction fields as [ | [k v] rest IH ]; simpl; [ reflexivity | ].
  destruct (k =? key); [ reflexivity | exact IH ].
Qed.

Lemma lookup_In key fields v :
  lookup key fields = Some v -> In (key, v) fields.
Proof.
  induction fields as [ | [k w] rest IH ]; simpl; [ discriminate | ].
  destruct (String.eqb_spec k key) as [-> | _].
  - intros [= ->]. now left.
  - intros H. right. auto.
Qed.

(** ** The sample configuration, end to end *)

(** C1. On the sample configuration of [main.py], [transform_strategy]
    returns an AST whose first rule is named [entry_long_rule] and has as
    condition the 3-operand AND of (price LESS_THAN 430),
    (ema_50 GREATER_THAN ema_200), (rsi_14 GREATER_THAN 60); rendering that
    condition gives [(price < 430) && (ema50 > ema200) && (rsi14 > 60)],
    and [generate] on that AST returns the class text whose [checkEntry]
    method returns exactly this expression. *)
Theorem sample_end_to_end :
  exists ast entry_rule other_rules,
    transform_strategy Main.original_strategy = Ok ast
    /\ getitem ast "rules" = Ok (JArr (entry_rule :: other_rules))
    /\ getitem entry_rule "name" = Ok (JStr "entry_long_rule")
    /\ getitem entry_rule "condition" = Ok sample_entry_condition
    /\ length (operands_of sample_entry_condition) = 3%nat
    /\ generate_condition_js sample_entry_condition
       = Ok "(price < 430) && (ema50 > ema200) && (rsi14 > 60)"
    /\ fst (generate (AstToCode.__init__ ast)) = Ok (join newline sample_code).
Proof.
  do 3 eexists.
  split; [ vm_compute; reflexivity | ].
  repeat split; vm_compute; reflexivity.
Qed.

(** ** Operator tokens *)

(** C4. For each of the tokens [<], [>], [<=], [>=], [==], [!=], the
    [op_map] of the Normalizer has an entry, and the value of that entry is
    rendered by [generate_comparison_operator] as [<], [>], [<=], [>=],
    [===], [!==] respectively; so a [price_comparison] with that token and
    any value, lowered and then rendered, reads [price <rendered> <value>]. *)
Theorem operator_round_trip :
  Forall (fun tr =>
            exists op,
              op_map_find op_map (JStr (fst tr)) = Some op
              /\ op_map_get (JStr (fst tr)) ComparisonOp.GREATER_THAN = Ok op
              /\ generate_comparison_operator (ComparisonOp.value op) = Ok (snd tr)
              /\ forall self value,
                  exists node,
                    _transform_price_comparison self
                      (JObj [("operator", JStr (fst tr)); ("value", value)]) = Ok node
                    /\ generate_condition_js node
                       = Ok ("price " ++ snd tr ++ " " ++ str value))
         token_renderings.
Proof.
  unfold token_renderings.
  repeat constructor; simpl fst; simpl snd; eexists;
    (split; [ reflexivity | split; [ reflexivity | split; [ reflexivity | ] ] ]);
    intros self value; eexists; (split; [ reflexivity | reflexivity ]).
Qed.

(** ** [generate] and the indentation counter *)

Lemma add_indent_cancel self : add_indent (-1) (add_indent 1 self) = self.
Proof.
  destruct self as [a n s]. unfold add_indent. simpl. f_equal. lia.
Qed.

Lemma generate_rule_restores self rule code code' self' :
  generate_rule self rule code = (Ok code', self') -> self' = self.
Proof.
  unfold generate_rule.
  destruct (getitem rule "name") as [name | e]; [ | discriminate ].
  destruct (str_eq name "entry_long_rule").
  - destruct (bind _ _); [ | discriminate ].
    intros [= _ <-]. apply add_indent_cancel.
  - destruct (str_eq name "exit_long_rule").
    + destruct (bind _ _); [ | discriminate ].
      intros [= _ <-]. apply add_indent_cancel.
    + intros [= _ <-]. reflexivity.
Qed.

Lemma generate_rule_ast self rule code :
  ast (snd (generate_rule self rule code)) = ast self.
Proof.
  unfold generate_rule.
  destruct (getitem rule "name") as [name | e]; [ | reflexivity ].
  destruct (str_eq name "entry_long_rule"); [ destruct (bind _ _); reflexivity | ].
  destruct (str_eq name "exit_long_rule"); [ destruct (bind _ _); reflexivity | ].
  reflexivity.
Qed.

(** Whether an iteration raises, and what, depends on the rule alone. *)
Lemma generate_rule_raise self rule code e self' code' :
  fst (generate_rule self rule code) = Raise e ->
  fst (generate_rule self' rule code') = Raise e.
Proof.
  unfold generate_rule.
  destruct (getitem rule "name") as [name | e0]; [ | exact (fun H => H) ].
  destruct (str_eq name "entry_long_rule");
    [ destruct (bind _ _); [ discriminate | exact (fun H => H) ] | ].
  destruct (str_eq name "exit_long_rule");
    [ destruct (bind _ _); [ discriminate | exact (fun H => H) ] | ].
  discriminate.
Qed.

Lemma generate_rule_ok self rule code out self' code' :
  fst (generate_rule self rule code) = Ok out ->
  exists out', fst (generate_rule self' rule code') = Ok out'.
Proof.
  unfold generate_rule.
  destruct (getitem rule "name") as [name | e0]; [ | discriminate ].
  destruct (str_eq name "entry_long_rule");
    [ destruct (bind _ _); [ simpl; eauto | discriminate ] | ].
  destruct (str_eq name "exit_long_rule");
    [ destruct (bind _ _); [ simpl; eauto | discriminate ] | ].
  simpl; eauto.
Qed.

Lemma generate_rules_restores rules : forall self code code' self',
  generate_rules self rules code = (Ok code', self') -> self' = self.
Proof.
  induction rules as [ | rule rest IH ]; simpl; intros self code code' self' H.
  - now injection H as _ <-.
  - destruct (generate_rule self rule code) as [[c | e] s] eqn:E; [ | discriminate ].
    apply generate_rule_restores in E as ->. eauto.
Qed.

Lemma generate_rules_ast rules : forall self code,
  ast (snd (generate_rules self rules code)) = ast self.
Proof.
  induction rules as [ | rule rest IH ]; simpl; intros self code; [ reflexivity | ].
  pose proof (generate_rule_ast self rule code) as Hast.
  destruct (generate_rule self rule code) as [[c | e] s]; simpl in Hast.
  - rewrite IH. exact Hast.
  - exact Hast.
Qed.

Lemma generate_rules_raise rules : forall self code e self' code',
  fst (generate_rules self rules code) = Raise e ->
  fst (generate_rules self' rules code') = Raise e.
Proof.
  induction rules as [ | rule rest IH ]; simpl; intros self code e self' code' H;
    [ discriminate | ].
  destruct (generate_rule self rule code) as [[c | e0] s] eqn:E.
  - destruct (generate_rule_ok self rule code c self' code') as [c' Hc'];
      [ now rewrite E | ].
    destruct (generate_rule self' rule code') as [[c1 | e1] s1]; [ | discriminate ].
    eauto.
  - simpl in H. injection H as ->.
    pose proof (generate_rule_raise self rule code e self' code') as Hr.
    rewrite E in Hr. specialize (Hr eq_refl).
    destruct (generate_rule self' rule code') as [[c1 | e1] s1]; [ discriminate | ].
    exact Hr.
Qed.

Lemma generate_ast self : ast (snd (generate self)) = ast self.
Proof.
  unfold generate.
  destruct (getitem (ast self) "symbol") as [symbol | e]; [ | reflexivity ].
  destruct (bind _ _) as [rules | e]; [ | reflexivity ].
  match goal with
  | |- context [generate_rules ?s ?r ?c] =>
      pose proof (generate_rules_ast r s c) as Hast;
      destruct (generate_rules s r c) as [[c' | e] s']
  end; simpl in *; exact Hast.
Qed.

Lemma generate_restores self text : fst (generate self) = Ok text -> snd (generate self) = self.
Proof.
  unfold generate.
  destruct (getitem (ast self) "symbol") as [symbol | e]; [ | discriminate ].
  destruct (bind _ _) as [rules | e]; [ | discriminate ].
  match goal with
  | |- context [generate_rules ?s ?r ?c] =>
      destruct (generate_rules s r c) as [[c' | e] s'] eqn:Er
  end; [ | discriminate ].
  intros _. simpl. apply generate_rules_restores in Er as ->.
  apply add_indent_cancel.
Qed.

(** Whether [generate] raises, and what, depends on the AST alone. *)
Lemma generate_raise self self' e :
  ast self' = ast self ->
  fst (generate self) = Raise e -> fst (generate self') = Raise e.
Proof.
  intros Hast. unfold generate. rewrite Hast.
  destruct (getitem (ast self) "symbol") as [symbol | e0]; [ | exact (fun H => H) ].
  change (ast (add_indent 1 self')) with (ast self').
  change (ast (add_indent 1 self)) with (ast self). rewrite Hast.
  destruct (bind (getitem (ast self) "rules") _) as [rules | e0];
    [ | exact (fun H => H) ].
  match goal with
  | |- fst match generate_rules ?s ?r ?c with _ => _ end = _ ->
       fst match generate_rules ?s' ?r ?c with _ => _ end = _ =>
      pose proof (generate_rules_raise r s c e s' c) as Hraise;
      destruct (generate_rules s r c) as [[c1 | e1] s1]; [ discriminate | ];
      intros [= ->]; specialize (Hraise eq_refl);
      destruct (generate_rules s' r c) as [[c2 | e2] s2];
      [ discriminate | simpl in *; congruence ]
  end.
Qed.

(** C8. [generate] never changes the AST its generator holds.  When it
    returns a text, the generator is left as it was (the indentation
    counter is back at its value before the call), so a second call on the
    same generator returns the same text; when it raises, a second call
    raises the same exception. *)
Theorem generate_repeatable (self : JavaScriptGenerator) :
  ast (snd (generate self)) = ast self
  /\ match fst (generate self) with
     | Ok text =>
         indent_level (snd (generate self)) = indent_level self
         /\ snd (generate self) = self
         /\ fst (generate (snd (generate self))) = Ok text
     | Raise e => fst (generate (snd (generate self))) = Raise e
     end.
Proof.
  split; [ apply generate_ast | ].
  destruct (fst (generate self)) as [text | e] eqn:E.
  - rewrite (generate_restores self text E). auto.
  - apply (generate_raise self); [ apply generate_ast | exact E ].
Qed.

(** ** The two lowerings agree with the source's comprehension and calls *)

Lemma _transform_condition_not_dict self c :
  (forall fields, c <> JObj fields) -> _transform_condition self c = Raise AttributeError.
Proof.
  destruct c; intros H; try reflexivity. now contradiction (H fields).
Qed.

(** [lower_members] is the list comprehension over the iteration. *)
Lemma lower_members_comprehension self members :
  lower_members (_transform_condition self) members
  = (items <- iter members ;; mapM (_transform_condition self) items).
Proof.
  destruct members as [ | b | n | s | items | fields ]; try reflexivity.
  - destruct s; reflexivity.
  - destruct fields as [ | [k v] rest ]; reflexivity.
Qed.

(** [render_operands] is the list comprehension over the iteration. *)
Lemma render_operands_comprehension operands :
  render_operands generate_condition_js operands
  = (items <- iter operands ;;
     mapM (fun c => text <- generate_condition_js c ;; Ok ("(" ++ text ++ ")")) items).
Proof.
  destruct operands as [ | b | n | s | items | fields ]; try reflexivity.
  - destruct s; reflexivity.
  - destruct fields as [ | [k v] rest ]; reflexivity.
Qed.

(** Under the guard of its last two [elif], [_transform_condition] is the
    call of [_transform_trigger_conditions] on the same dict. *)
Lemma _transform_condition_nested self fields :
  recognized_type (lookup_default fields "type" (JStr "")) = false ->
  lookup "and" fields <> None \/ lookup "or" fields <> None ->
  _transform_condition self (JObj fields)
  = _transform_trigger_conditions self (JObj fields).
Proof.
  unfold recognized_type. intros Hty Hkey.
  apply orb_false_elim in Hty as [Hty H4]. apply orb_false_elim in Hty as [Hty H3].
  apply orb_false_elim in Hty as [H1 H2].
  unfold _transform_trigger_conditions. simpl.
  rewrite H1, H2, H3, H4. rewrite !find_lookup.
  destruct (lookup "and" fields) as [members | ]; simpl; [ reflexivity | ].
  destruct (lookup "or" fields) as [members | ]; simpl; [ reflexivity | ].
  destruct Hkey as [H | H]; now contradiction H.
Qed.

(** ** What every lowered condition tree satisfies *)

Lemma every_node_comparison p l op r :
  every_node p (comparison_node l op r) = p (comparison_node l op r).
Proof.
  cbn. now rewrite andb_true_r.
Qed.

Lemma every_node_logical p op operands :
  every_node p (logical_node op operands)
  = p (logical_node op operands) && forallb (every_node p) operands.
Proof.
  reflexivity.
Qed.

Lemma every_node_group p op operands :
  (length operands <> 1%nat -> p (logical_node op operands) = true) ->
  Forall (fun e => every_node p e = true) operands ->
  every_node p (group op operands) = true.
Proof.
  intros Hp Hall. unfold group.
  destruct operands as [ | x [ | y rest ] ].
  - rewrite every_node_logical, Hp by (simpl; lia). reflexivity.
  - now inversion Hall.
  - rewrite every_node_logical. apply andb_true_intro. split.
    + apply Hp. simpl. lia.
    + apply forallb_forall. now apply Forall_forall.
Qed.

Section LoweredTrees.
Variable self : StrategyTransformer.
Variable p : json -> bool.
Hypothesis p_comparison :
  forall l op r, value_node l -> value_node r -> p (comparison_node l op r) = true.
Hypothesis p_logical :
  forall op operands, length operands <> 1%nat -> p (logical_node op operands) = true.

Lemma typed_conditions_are_comparisons params e :
  _transform_price_condition self params = Ok e
  \/ _transform_indicator_comparison self params = Ok e
  \/ _transform_indicator_event self params = Ok e
  \/ _transform_price_comparison self params = Ok e ->
  exists l op r, e = comparison_node l op r /\ value_node l /\ value_node r.
Proof.
  unfold _transform_price_condition, _transform_indicator_comparison,
    _transform_indicator_event, _transform_price_comparison.
  destruct params as [ | | | | | pf ];
    try (intros [H | [H | [H | H]]]; discriminate).
  unfold get; cbn [bind].
  intros [H | [H | [H | H]]].
  - destruct (str_eq _ "cross"); injection H as <-;
      do 3 eexists; repeat split; constructor.
  - apply bind_ok in H as (op & _ & H). injection H as <-.
    do 3 eexists; repeat split; try constructor.
    destruct (truthy _); [ constructor | ].
    destruct (lookup_default pf "value" JNull); constructor.
  - apply bind_ok in H as (op & _ & H). injection H as <-.
    do 3 eexists; repeat split; constructor.
  - apply bind_ok in H as (op & _ & H). injection H as <-.
    do 3 eexists; repeat split; constructor.
Qed.

Lemma lowered_members_every_node members :
  (forall e, _transform_condition self members = Ok e -> every_node p e = true)
  /\ (forall es, lower_members (_transform_condition self) members = Ok es ->
      Forall (fun e => every_node p e = true) es).
Proof.
  induction members as [ | b | n | s | items IH | fields IH ] using json_ind;
    try (split; [ discriminate | intros es; try discriminate ]).
  - destruct s; [ intros [= <-]; constructor | discriminate ].
  - simpl. revert es. induction IH as [ | x xs [Hx _] _ IHxs ]; simpl; intros es H.
    + injection H as <-. constructor.
    + apply bind_ok in H as (y & Hy & H). apply bind_ok in H as (ys & Hys & H).
      injection H as <-. constructor; auto.
  - split.
    + intros e. simpl.
      assert (Htyped : forall params,
                 _transform_price_condition self params = Ok e
                 \/ _transform_indicator_comparison self params = Ok e
                 \/ _transform_indicator_event self params = Ok e
                 \/ _transform_price_comparison self params = Ok e ->
                 every_node p e = true).
      { intros params H.
        apply typed_conditions_are_comparisons in H as (l & op & r & -> & Hl & Hr).
        rewrite every_node_comparison. now apply p_comparison. }
      destruct (str_eq _ "price_move"); [ eauto | ].
      destruct (str_eq _ "indicator_comparison"); [ eauto | ].
      destruct (str_eq _ "indicator_event"); [ eauto 6 | ].
      destruct (str_eq _ "price_comparison"); [ eauto 6 | ].
      rewrite !find_lookup.
      destruct (lookup "and" fields) as [members | ] eqn:Eand; simpl.
      { intros H. apply bind_ok in H as (es & Hes & H). injection H as <-.
        apply every_node_group; [ apply p_logical | ].
        destruct (proj1 (Forall_forall _ _) IH _ (lookup_In _ _ _ Eand)) as [_ Hm].
        exact (Hm es Hes). }
      destruct (lookup "or" fields) as [members | ] eqn:Eor; simpl.
      { intros H. apply bind_ok in H as (es & Hes & H). injection H as <-.
        apply every_node_group; [ apply p_logical | ].
        destruct (proj1 (Forall_forall _ _) IH _ (lookup_In _ _ _ Eor)) as [_ Hm].
        exact (Hm es Hes). }
      intros [= <-]. unfold always_true.
      rewrite every_node_comparison. apply p_comparison; constructor.
    + intros es. destruct fields; [ intros [= <-]; constructor | discriminate ].
Qed.

Lemma _transform_condition_every_node c e :
  _transform_condition self c = Ok e -> every_node p e = true.
Proof.
  apply lowered_members_every_node.
Qed.

Lemma _transform_trigger_conditions_every_node trigger e :
  _transform_trigger_conditions self trigger = Ok e -> every_node p e = true.
Proof.
  unfold _transform_trigger_conditions. intros H.
  apply bind_ok in H as (has_and & _ & H). destruct has_and.
  { apply bind_ok in H as (members & _ & H). apply bind_ok in H as (es & Hes & H).
    injection H as <-. apply every_node_group; [ apply p_logical | ].
    exact (proj2 (lowered_members_every_node members) es Hes). }
  apply bind_ok in H as (has_or & _ & H). destruct has_or.
  { apply bind_ok in H as (members & _ & H). apply bind_ok in H as (es & Hes & H).
    injection H as <-. apply every_node_group; [ apply p_logical | ].
    exact (proj2 (lowered_members_every_node members) es Hes). }
  apply bind_ok in H as (keys & _ & H).
  destruct (existsb not_reserved keys).
  - now apply _transform_condition_every_node in H.
  - injection H as <-. unfold always_true.
    rewrite every_node_comparison. apply p_comparison; constructor.
Qed.

End LoweredTrees.

(** ** Logical groups *)

Lemma not_unary_comparison l op r : not_unary (comparison_node l op r) = true.
Proof. reflexivity. Qed.

Lemma not_unary_logical op operands :
  length operands <> 1%nat -> not_unary (logical_node op operands) = true.
Proof.
  intros H. unfold not_unary. cbn.
  destruct (Nat.eqb_spec (length operands) 1); [ contradiction | reflexivity ].
Qed.

(** C3 (amended). A trigger dict whose [and] list has exactly one member
    lowers to the lowering of that member; so does a trigger dict without
    an [and] key whose [or] list has exactly one member.  No tree returned
    by [_transform_trigger_conditions] has, at any depth, a
    LogicalExpression node with exactly one operand. *)
Theorem collapse_law (self : StrategyTransformer) :
  (forall fields member,
      lookup "and" fields = Some (JArr [member]) ->
      _transform_trigger_conditions self (JObj fields)
      = _transform_condition self member)
  /\ (forall fields member,
         lookup "and" fields = None ->
         lookup "or" fields = Some (JArr [member]) ->
         _transform_trigger_conditions self (JObj fields)
         = _transform_condition self member)
  /\ (forall trigger e,
         _transform_trigger_conditions self trigger = Ok e ->
         every_node not_unary e = true).
Proof.
  split; [ | split ].
  - intros fields member Hand. unfold _transform_trigger_conditions. simpl.
    rewrite Hand. simpl.
    destruct (_transform_condition self member); reflexivity.
  - intros fields member Hand Hor. unfold _transform_trigger_conditions. simpl.
    rewrite Hand, Hor. simpl.
    destruct (_transform_condition self member); reflexivity.
  - apply _transform_trigger_conditions_every_node.
    + intros l op r _ _. apply not_unary_comparison.
    + exact not_unary_logical.
Qed.

Lemma collapse_law_witness :
  _transform_trigger_conditions bare_transformer Main.exit_trigger
  = Ok (comparison_node (indicator_ref_node (JStr "ema_50")) ComparisonOp.LESS_THAN
                        (indicator_ref_node (JStr "ema_200")))
  /\ _transform_trigger_conditions bare_transformer
       (JObj [("or", JArr [price_comparison "==" 3])])
     = _transform_condition bare_transformer (price_comparison "==" 3)
  /\ exists e,
       _transform_trigger_conditions bare_transformer Main.entry_trigger = Ok e
       /\ every_node not_unary e = true.
Proof.
  destruct (collapse_law bare_transformer) as (Hand & Hor & Hnode).
  split; [ | split ].
  - unfold Main.exit_trigger.
    etransitivity; [ apply Hand; reflexivity | reflexivity ].
  - apply Hor; reflexivity.
  - eexists. split; [ reflexivity | ].
    apply (Hnode Main.entry_trigger). reflexivity.
Defined.

(** C3, as stated, fails when the trigger has both keys: the [or] list has
    exactly one member, and the lowering is the AND group of the [and]
    list, not the lowered member. *)
Lemma collapse_law_or_shadowed :
  getitem both_keys_trigger "or" = Ok (JArr [price_comparison "==" 3])
  /\ _transform_trigger_conditions bare_transformer both_keys_trigger
     = Ok (logical_node LogicalOp.AND
             [comparison_node (price_ref_node (JStr "UNKNOWN")) ComparisonOp.LESS_THAN
                              (literal_node (JNum 1));
              comparison_node (price_ref_node (JStr "UNKNOWN")) ComparisonOp.GREATER_THAN
                              (literal_node (JNum 2))])
  /\ _transform_trigger_conditions bare_transformer both_keys_trigger
     <> _transform_condition bare_transformer (price_comparison "==" 3).
Proof.
  split; [ reflexivity | split; [ reflexivity | ] ].
  vm_compute. discriminate.
Qed.

(** C5, at its failing input: an empty [and] list lowers to a
    LogicalExpression with no operand, which the Emitter renders as the
    empty text, so [checkEntry] reads [return ;]. *)
Theorem empty_group_lowering :
  exists ast,
    transform_strategy empty_group_strategy = Ok ast
    /\ conditions_of ast = [logical_node LogicalOp.AND []]
    /\ length (operands_of (logical_node LogicalOp.AND [])) = 0%nat
    /\ Forall (fun c => every_node nonempty_logical c = false) (conditions_of ast)
    /\ fst (generate (AstToCode.__init__ ast)) = Ok (join newline empty_group_code).
Proof.
  eexists. split; [ vm_compute; reflexivity | ].
  split; [ reflexivity | split; [ reflexivity | split ] ].
  - repeat constructor.
  - vm_compute. reflexivity.
Qed.

(** ** The default condition *)

(** C9 (amended). A condition dict whose [type] is none of the four
    recognized tags and which has neither an [and] nor an [or] key lowers
    to the always-true comparison; so does a trigger dict with neither key
    and no key outside [actions], [id], [name].  That comparison is
    [Literal(1) EQUALS Literal(1)]. *)
Theorem default_fallback (self : StrategyTransformer) :
  (forall fields,
      recognized_type (lookup_default fields "type" (JStr "")) = false ->
      lookup "and" fields = None -> lookup "or" fields = None ->
      _transform_condition self (JObj fields) = Ok always_true)
  /\ (forall fields,
         lookup "and" fields = None -> lookup "or" fields = None ->
         forallb (fun kv => negb (not_reserved (JStr (fst kv)))) fields = true ->
         _transform_trigger_conditions self (JObj fields) = Ok always_true)
  /\ always_true
     = JObj [("type", JStr "Comparison");
             ("left", JObj [("type", JStr "Literal"); ("value", JNum 1);
                            ("dataType", JStr "number")]);
             ("operator", JStr "EQUALS");
             ("right", JObj [("type", JStr "Literal"); ("value", JNum 1);
                             ("dataType", JStr "number")])].
Proof.
  split; [ | split; [ | reflexivity ] ].
  - unfold recognized_type. intros fields Hty Hand Hor.
    apply orb_false_elim in Hty as [Hty H4]. apply orb_false_elim in Hty as [Hty H3].
    apply orb_false_elim in Hty as [H1 H2].
    simpl. rewrite H1, H2, H3, H4, !find_lookup, Hand, Hor. reflexivity.
  - intros fields Hand Hor Hkeys. unfold _transform_trigger_conditions. simpl.
    rewrite Hand, Hor. simpl.
    replace (existsb not_reserved (map (fun kv => JStr (fst kv)) fields)) with false;
      [ reflexivity | ].
    symmetry. clear Hand Hor.
    induction fields as [ | [k v] rest IH ]; [ reflexivity | ].
    simpl in Hkeys |- *. apply andb_prop in Hkeys as [Hk Hrest].
    apply negb_true_iff in Hk. simpl in Hk. rewrite Hk. simpl. auto.
Qed.

Lemma default_fallback_witness :
  _transform_condition bare_transformer (JObj [("type", JStr "unknown_type")])
  = Ok always_true
  /\ _transform_trigger_conditions bare_transformer
       (JObj [("id", JStr "t1"); ("name", JStr "idle"); ("actions", JArr [])])
     = Ok always_true.
Proof.
  destruct (default_fallback bare_transformer) as (Hcond & Htrigger & _).
  split.
  - apply Hcond; reflexivity.
  - apply Htrigger; reflexivity.
Defined.

(** C9, as stated, fails for a condition with an unrecognized [type] that
    also has an [and] key: it lowers to the group, not to the default. *)
Lemma default_fallback_group_first :
  getitem tagged_group "type" = Ok (JStr "unknown_type")
  /\ recognized_type (JStr "unknown_type") = false
  /\ _transform_condition bare_transformer tagged_group
     = Ok (logical_node LogicalOp.AND
             [comparison_node (price_ref_node (JStr "UNKNOWN")) ComparisonOp.LESS_THAN
                              (literal_node (JNum 1));
              comparison_node (price_ref_node (JStr "UNKNOWN")) ComparisonOp.GREATER_THAN
                              (literal_node (JNum 2))])
  /\ _transform_condition bare_transformer tagged_group <> Ok always_true.
Proof.
  split; [ reflexivity | split; [ reflexivity | split; [ reflexivity | ] ] ].
  vm_compute. discriminate.
Qed.

(** ** Actions *)

(** C6 (amended). The Position of a lowered action carries [max_size]
    (from [max_position_size], default 1) exactly when the action's type is
    [entry], and [percent] (from [percent_of_position], default 100)
    exactly when it is [exit]; it carries exactly one of the two when the
    type is [entry] or [exit], and neither otherwise. *)
Theorem position_size_field (self : StrategyTransformer) (action node : json) :
  _transform_action self action = Ok node ->
  exists fields position,
    action = JObj fields
    /\ getitem node "position" = Ok (JObj position)
    /\ lookup "max_size" position
       = (if str_eq (lookup_default fields "type" (JStr "")) "entry"
          then Some (lookup_default fields "max_position_size" (JNum 1))
          else None)
    /\ lookup "percent" position
       = (if str_eq (lookup_default fields "type" (JStr "")) "exit"
          then Some (lookup_default fields "percent_of_position" (JNum 100))
          else None)
    /\ exactly_one_size_field node
       = str_eq (lookup_default fields "type" (JStr "")) "entry"
         || str_eq (lookup_default fields "type" (JStr "")) "exit".
Proof.
  unfold _transform_action.
  destruct action as [ | | | | | fields ]; try discriminate.
  unfold get at 1 2 3 5 7 8. cbn [bind]. intros H.
  apply bind_ok in H as (act_type & _ & H).
  apply bind_ok in H as (direction & _ & H).
  apply bind_ok in H as (position_symbol & _ & H).
  apply bind_ok in H as (order_type & _ & H).
  apply bind_ok in H as (position_order_type & _ & H).
  exists fields.
  destruct (lookup_default fields "type" (JStr "")) as [ | | | ty | | ];
    try (injection H as <-; eexists; repeat split; reflexivity).
  unfold str_eq in *.
  destruct (String.eqb_spec ty "entry") as [Hentry | Hentry].
  { subst ty. injection H as <-. eexists; repeat split; reflexivity. }
  destruct (String.eqb_spec ty "exit") as [Hexit | Hexit].
  { subst ty. injection H as <-. eexists; repeat split; reflexivity. }
  injection H as <-. eexists; repeat split; reflexivity.
Qed.

Lemma position_size_field_witness :
  exists position,
    getitem
      (JObj [("type", JStr "OrderAction"); ("action_type", JStr "OPEN_POSITION");
             ("position", JObj position)]) "position" = Ok (JObj position)
    /\ lookup "max_size" position = Some (JNum 10)
    /\ lookup "percent" position = None.
Proof.
  destruct (position_size_field bare_transformer Main.entry_long
              (JObj [("type", JStr "OrderAction"); ("action_type", JStr "OPEN_POSITION");
                     ("position",
                      JObj [("type", JStr "Position"); ("direction", JStr "LONG");
                            ("symbol", JStr "TSLA"); ("order_type", JStr "MARKET");
                            ("max_size", JNum 10)])])
              eq_refl)
    as (fields & position & Haction & Hposition & Hmax & Hpercent & _).
  injection Haction as <-.
  exists position. split; [ | split ].
  - reflexivity.
  - exact Hmax.
  - exact Hpercent.
Defined.

(** C6, as stated, fails for an action whose type is neither [entry] nor
    [exit]: the Position of its OrderAction, in the AST returned, carries
    neither field. *)
Lemma position_without_size_field :
  exists ast rule node position,
    transform_strategy alert_strategy = Ok ast
    /\ getitem ast "rules" = Ok (JArr [rule])
    /\ getitem rule "action" = Ok node
    /\ _transform_action bare_transformer alert_action = Ok node
    /\ getitem node "action_type" = Ok (JStr "ALERT")
    /\ getitem node "position" = Ok (JObj position)
    /\ lookup "max_size" position = None
    /\ lookup "percent" position = None
    /\ exactly_one_size_field node = false.
Proof.
  do 4 eexists. split; [ vm_compute; reflexivity | ].
  repeat split; reflexivity.
Qed.

(** ** Triggers and rules *)

Lemma transform_actions_loop_spec self i condition action_ids :
  forall result result',
    transform_actions_loop self i condition action_ids result = Ok result' ->
    exists rules,
      result' = (result ++ rules)%list
      /\ Forall2 (rule_of self i condition) (filter (resolves self) action_ids) rules.
Proof.
  induction action_ids as [ | action_id rest IH ]; simpl; intros result result' H.
  - injection H as <-. exists []. split; [ now rewrite app_nil_r | constructor ].
  - apply bind_ok in H as (action & Haction & H).
    unfold dict_get_none in Haction. unfold resolves at 1.
    destruct (hashable action_id); [ | discriminate ]. injection Haction as <-.
    destruct (dict_get (actions_map self) action_id) as [action | ] eqn:Eget.
    + destruct (truthy action).
      * apply bind_ok in H as (action_node & Hnode & H).
        apply IH in H as (rules & -> & Hrules).
        exists (rule_node (JStr (rule_name i action_id)) condition action_node :: rules).
        split; [ unfold append; now rewrite <- app_assoc | ].
        constructor; [ | exact Hrules ]. econstructor; eassumption.
      * now apply IH in H.
    + now apply IH in H.
Qed.

Lemma transform_triggers_loop_spec self triggers :
  forall i result result',
    transform_triggers_loop self i triggers result = Ok result' ->
    exists rules, result' = (result ++ rules)%list /\ rules_of self i triggers rules.
Proof.
  induction triggers as [ | trigger rest IH ]; simpl; intros i result result' H.
  - injection H as <-. exists []. split; [ now rewrite app_nil_r | constructor ].
  - apply bind_ok in H as (condition & Hcondition & H).
    apply bind_ok in H as (actions & Hactions & H).
    apply bind_ok in H as (action_ids & Hids & H).
    apply bind_ok in H as (result1 & Hloop & H).
    apply transform_actions_loop_spec in Hloop as (rules_here & -> & Hhere).
    apply IH in H as (rules_after & -> & Hafter).
    exists (rules_here ++ rules_after)%list. split; [ now rewrite app_assoc | ].
    econstructor; try eassumption.
    unfold referenced_ids. now rewrite Hactions.
Qed.

(** An id that is absent from the action set is skipped by the loop. *)
Lemma absent_id_skipped self i condition action_id rest result :
  hashable action_id = true ->
  resolves self action_id = false ->
  transform_actions_loop self i condition (action_id :: rest) result
  = transform_actions_loop self i condition rest result.
Proof.
  unfold resolves. intros Hhash Hget. simpl. unfold dict_get_none. rewrite Hhash.
  cbn [bind].
  destruct (dict_get (actions_map self) action_id) as [action | ];
    [ now rewrite Hget | reflexivity ].
Qed.

(** *** The id map of the actions *)

Ltac key_cases :=
  repeat match goal with
         | b : bool |- _ => destruct b
         | H : (_ =? _)%Z = true |- _ => apply Z.eqb_eq in H; subst
         | H : (_ =? _)%string = true |- _ => apply String.eqb_eq in H; subst
         | |- (_ =? _)%Z = true => apply Z.eqb_eq
         | |- (_ =? _)%string = true => apply String.eqb_eq
         end.

Lemma key_eq_refl a : hashable a = true -> key_eq a a = true.
Proof.
  destruct a; simpl; intros; try discriminate; key_cases; reflexivity.
Qed.

Lemma key_eq_sym a b : key_eq a b = true -> key_eq b a = true.
Proof.
  destruct a, b; simpl; intros H; try discriminate; key_cases;
    try reflexivity; try discriminate; lia.
Qed.

Lemma key_eq_trans a b c :
  key_eq a b = true -> key_eq b c = true -> key_eq a c = true.
Proof.
  destruct a, b, c; simpl; intros H1 H2; try discriminate; key_cases;
    try reflexivity; try discriminate; lia.
Qed.

Lemma dict_get_In d k a :
  dict_get d k = Some a -> exists k0, In (k0, a) d /\ key_eq k0 k = true.
Proof.
  induction d as [ | [k0 w] rest IH ]; simpl; [ discriminate | ].
  destruct (key_eq k0 k) eqn:E.
  - intros [= <-]. exists k0. split; [ now left | exact E ].
  - intros H. destruct (IH H) as (k1 & Hin & Hk). exists k1. split; [ now right | exact Hk ].
Qed.

Lemma dict_set_In d key v k a :
  In (k, a) (dict_set d key v) ->
  In (k, a) d \/ (a = v /\ (k = key \/ key_eq k key = true)).
Proof.
  induction d as [ | [k0 w] rest IH ]; simpl.
  - intros [[= <- <-] | []]. right. auto.
  - destruct (key_eq k0 key) eqn:E; simpl.
    + intros [[= <- <-] | Hin]; [ right; auto | left; now right ].
    + intros [Heq | Hin]; [ left; now left | ].
      destruct (IH Hin) as [Hrest | Hnew]; [ left; now right | now right ].
Qed.

Lemma dict_set_found d key v k :
  hashable key = true -> key_eq key k = true ->
  exists a, dict_get (dict_set d key v) k = Some a.
Proof.
  intros Hhash Hk. induction d as [ | [k0 w] rest IH ]; simpl.
  - rewrite Hk. eauto.
  - destruct (key_eq k0 key) eqn:E; simpl.
    + rewrite (key_eq_trans _ _ _ E Hk). eauto.
    + destruct (key_eq k0 k); eauto.
Qed.

Lemma dict_set_kept d key v k a :
  dict_get d k = Some a -> exists a', dict_get (dict_set d key v) k = Some a'.
Proof.
  induction d as [ | [k0 w] rest IH ]; simpl; [ discriminate | ].
  destruct (key_eq k0 key); simpl; destruct (key_eq k0 k); eauto.
Qed.

Lemma id_map_entries all items :
  incl items all ->
  forall acc m,
    id_map items acc = Ok m ->
    Forall (entry_of all) acc -> Forall (entry_of all) m.
Proof.
  induction items as [ | item rest IH ]; simpl; intros Hincl acc m H Hacc.
  - now injection H as <-.
  - apply bind_ok in H as (key & Hkey & H).
    destruct (hashable key) eqn:Hhash; [ | discriminate ].
    apply (IH (fun x Hx => Hincl x (or_intror Hx)) _ _ H).
    apply Forall_forall. intros [k a] Hin.
    apply dict_set_In in Hin as [Hold | (-> & Hk)].
    + exact (proj1 (Forall_forall _ _) Hacc _ Hold).
    + split; [ apply Hincl; now left | ].
      exists key. split; [ exact Hkey | ].
      destruct Hk as [-> | Hk]; [ now apply key_eq_refl | exact Hk ].
Qed.

Lemma id_map_complete items :
  forall acc m,
    id_map items acc = Ok m ->
    forall k,
      (exists a, dict_get acc k = Some a)
      \/ (exists item id, In item items /\ getitem item "id" = Ok id
                          /\ key_eq id k = true) ->
      exists a, dict_get m k = Some a.
Proof.
  induction items as [ | item rest IH ]; simpl; intros acc m H k Hk.
  - injection H as <-. destruct Hk as [Hk | (? & ? & [] & _)]. exact Hk.
  - apply bind_ok in H as (key & Hkey & H).
    destruct (hashable key) eqn:Hhash; [ | discriminate ].
    apply (IH _ _ H). destruct Hk as [[a Ha] | (x & id & [<- | Hin] & Hid & Heq)].
    + left. eapply dict_set_kept; eassumption.
    + left. rewrite Hkey in Hid. injection Hid as <-. now apply dict_set_found.
    + right. eauto.
Qed.

(** An id resolves exactly when one of the actions has an equal id. *)
Lemma resolves_iff self config actions :
  strategy self = config ->
  _build_actions_map config = Ok (actions_map self) ->
  (acts <- get config "actions" (JArr []) ;; iter acts) = Ok actions ->
  forall action_id,
    resolves self action_id = true
    <-> exists action id,
        In action actions /\ getitem action "id" = Ok id
        /\ key_eq id action_id = true.
Proof.
  intros _ Hmap Hactions action_id. unfold _build_actions_map in Hmap.
  apply bind_ok in Hactions as (acts & Hget & Hiter). rewrite Hget in Hmap.
  cbn [bind] in Hmap. rewrite Hiter in Hmap. cbn [bind] in Hmap.
  pose proof (id_map_entries actions actions (incl_refl _) [] _ Hmap (Forall_nil _))
    as Hentries.
  unfold resolves. split.
  - destruct (dict_get (actions_map self) action_id) as [action | ] eqn:Eget;
      [ | discriminate ].
    intros _. apply dict_get_In in Eget as (k0 & Hin & Hk0).
    destruct (proj1 (Forall_forall _ _) Hentries _ Hin) as (Hitem & id & Hid & Hkid).
    exists action, id. repeat split; try assumption.
    exact (key_eq_trans _ _ _ (key_eq_sym _ _ Hkid) Hk0).
  - intros Hex.
    destruct (id_map_complete actions [] _ Hmap action_id (or_intror Hex)) as [a Ha].
    rewrite Ha. apply dict_get_In in Ha as (k0 & Hin & _).
    destruct (proj1 (Forall_forall _ _) Hentries _ Hin) as (_ & id & Hid & _).
    simpl in Hid. destruct a as [ | | | | | fields ]; try discriminate.
    destruct fields; [ discriminate | reflexivity ].
Qed.

Lemma transform_strategy_inv config ast :
  transform_strategy config = Ok ast ->
  exists self indicators rules,
    JsonToAst.__init__ config = Ok self
    /\ strategy self = config
    /\ _build_actions_map config = Ok (actions_map self)
    /\ _transform_indicators self = Ok indicators
    /\ _transform_triggers self = Ok (JArr rules)
    /\ ast = JObj [("type", JStr "TradingStrategy"); ("symbol", symbol self);
                   ("indicators", indicators); ("rules", JArr rules)].
Proof.
  unfold transform_strategy. intros H.
  apply bind_ok in H as (self & Hinit & H). unfold transform in H.
  apply bind_ok in H as (indicators & Hind & H).
  apply bind_ok in H as (rules & Hrules & H). injection H as <-.
  assert (Hshape : exists l, rules = JArr l).
  { unfold _transform_triggers in Hrules.
    apply bind_ok in Hrules as (? & _ & Hrules).
    apply bind_ok in Hrules as (? & _ & Hrules).
    apply bind_ok in Hrules as (l & _ & Hrules). injection Hrules as <-. eauto. }
  destruct Hshape as [l ->].
  exists self, indicators, l.
  unfold JsonToAst.__init__ in Hinit.
  pose proof Hinit as Hinit'.
  apply bind_ok in Hinit' as (? & _ & Hinit').
  apply bind_ok in Hinit' as (? & _ & Hinit').
  apply bind_ok in Hinit' as (? & _ & Hinit').
  apply bind_ok in Hinit' as (amap & Hamap & Hinit'). injection Hinit' as <-.
  simpl. auto 10.
Qed.

(** An id that cannot be hashed makes the loop raise TypeError. *)
Lemma unhashable_id_raises self i condition action_id rest result :
  hashable action_id = false ->
  transform_actions_loop self i condition (action_id :: rest) result = Raise TypeError.
Proof.
  intros Hhash. simpl. unfold dict_get_none. now rewrite Hhash.
Qed.




Lemma rules_of_rule_nodes self i triggers rules :
  rules_of self i triggers rules ->
  Forall (fun rule =>
            exists name condition action_node trigger,
              rule = rule_node (JStr name) condition action_node
              /\ In trigger triggers
              /\ _transform_trigger_conditions self trigger = Ok condition)
         rules.
Proof.
  induction 1 as [ | i trigger triggers condition action_ids rules_here rules_after
                     Hcondition _ Hhere _ IH ]; [ constructor | ].
  apply Forall_app. split.
  - clear IH. induction Hhere as [ | action_id rule ids rs Hrule _ IHrs ];
      constructor; [ | exact IHrs ].
    destruct Hrule. do 4 eexists. split; [ reflexivity | ]. split; [ now left | eassumption ].
  - eapply Forall_impl; [ | exact IH ].
    intros rule (name & c & a & t & -> & Hin & Ht). do 4 eexists.
    split; [ reflexivity | ]. split; [ right; exact Hin | exact Ht ].
Qed.

(** ** The Emitter on the ASTs of the Normalizer *)

Lemma handled_node_comparison l op r :
  value_node l -> value_node r -> handled_node (comparison_node l op r) = true.
Proof.
  intros [ v | s | n ] [ v' | s' | n' ]; destruct op; reflexivity.
Qed.

Lemma handled_node_logical op operands :
  handled_node (logical_node op operands) = true.
Proof.
  destruct op; reflexivity.
Qed.

Lemma every_node_dict p fields :
  every_node p (JObj fields)
  = p (JObj fields)
    && (if is_logical (JObj fields)
        then match lookup "operands" fields with
             | Some (JArr items) => forallb (every_node p) items
             | _ => true
             end
        else true).
Proof.
  simpl. f_equal. unfold is_logical, getitem, lookup_default. rewrite find_lookup.
  destruct (lookup "type" fields) as [ty | ]; [ | reflexivity ].
  destruct (str_eq ty "LogicalExpression"); [ | reflexivity ].
  destruct (lookup "operands" fields) as [ [ | | | | items | ] | ]; reflexivity.
Qed.

Lemma get_value_js_defined val :
  handled_value val = true -> str_name val = true ->
  exists text, get_value_js val = Ok text.
Proof.
  unfold handled_value, str_name, get_value_js, has_key.
  destruct (getitem val "type") as [ty | ]; [ | discriminate ]. cbn [bind].
  destruct ty as [ | | | s | | ]; try discriminate. unfold str_eq.
  destruct (String.eqb_spec s "Literal") as [Hs | Hs].
  { subst s. destruct (getitem val "value"); [ simpl; eauto | discriminate ]. }
  destruct (String.eqb_spec s "PriceReference") as [Hp | Hp]; [ eauto | ].
  destruct (String.eqb_spec s "IndicatorReference") as [Hi | Hi]; [ | discriminate ].
  destruct (getitem val "name") as [ [ | | | name | | ] | ]; try discriminate.
  simpl. eauto.
Qed.

Lemma generate_comparison_operator_defined op :
  table_find operator_table op <> None ->
  exists text, generate_comparison_operator op = Ok text.
Proof.
  unfold generate_comparison_operator. intros H.
  destruct op; try (now contradiction H).
  cbn [hashable].
  destruct (table_find operator_table (JStr s)); [ eauto | now contradiction H ].
Qed.

Lemma generate_condition_js_defined e :
  (every_node handled_node e = true -> every_node str_names e = true ->
   exists text, generate_condition_js e = Ok text)
  /\ (forall items, e = JArr items ->
      forallb (every_node handled_node) items = true ->
      forallb (every_node str_names) items = true ->
      exists parts, render_operands generate_condition_js e = Ok parts).
Proof.
  induction e as [ | b | n | s | items IH | fields IH ] using json_ind;
    try (split; [ discriminate | intros items; discriminate ]).
  - split; [ discriminate | ].
    intros items' [= <-] Hh Hs. simpl. apply mapM_total.
    rewrite forallb_forall in Hh, Hs. rewrite Forall_forall in IH |- *.
    intros c Hc. destruct (proj1 (IH c Hc) (Hh c Hc) (Hs c Hc)) as [text ->].
    simpl. eauto.
  - split; [ | intros items; discriminate ].
    rewrite !every_node_dict. intros Hh Hs.
    apply andb_prop in Hh as [Hnode Hh]. apply andb_prop in Hs as [Hnames Hs].
    unfold handled_node in Hnode. unfold str_names in Hnames.
    unfold is_logical, is_comparison, has_key, operator_in_table in *.
    cbn [generate_condition_js]. unfold getitem in *. rewrite find_lookup.
    destruct (lookup "type" fields) as [ty | ]; [ | discriminate ]. cbn [bind].
    destruct ty as [ | | | s | | ]; try (simpl in Hnode; discriminate).
    unfold str_eq in *.
    destruct (String.eqb_spec s "LogicalExpression") as [E | E].
    + subst s.
      apply orb_prop in Hnode as [Hnode | Hnode]; [ | simpl in Hnode; discriminate ].
      apply andb_prop in Hnode as [Hnode Hoperands].
      apply andb_prop in Hnode as [_ Hoperator].
      destruct (lookup "operator" fields) as [operator | ]; [ | discriminate ].
      cbn [bind].
      destruct (lookup "operands" fields) as [ [ | | | | items | ] | ] eqn:Eops;
        try discriminate.
      destruct (proj1 (Forall_forall _ _) IH _ (lookup_In _ _ _ Eops)) as [_ Hops].
      destruct (Hops items eq_refl Hh Hs) as [parts Hparts].
      cbn [option_map]. cbn [snd] in Hparts. rewrite Hparts. cbn [bind]. eauto.
    + apply orb_prop in Hnode as [Hnode | Hnode]; [ simpl in Hnode; discriminate | ].
      apply andb_prop in Hnode as [Hnode Hr]. apply andb_prop in Hnode as [Hnode Hl].
      apply andb_prop in Hnode as [Hty Hop].
      rewrite Hty in Hnames |- *. cbn [negb orb] in Hnames.
      destruct (lookup "operator" fields) as [operator | ]; [ | discriminate ].
      destruct (lookup "left" fields) as [l | ]; [ | discriminate ].
      destruct (lookup "right" fields) as [r | ]; [ | discriminate ].
      apply andb_prop in Hnames as [Hnl Hnr].
      destruct (get_value_js_defined l Hl Hnl) as [tl Htl].
      destruct (get_value_js_defined r Hr Hnr) as [tr Htr].
      destruct (generate_comparison_operator_defined operator) as [to Hto].
      { destruct (table_find operator_table operator); discriminate. }
      cbn [bind]. rewrite Htl. cbn [bind]. rewrite Htr. cbn [bind]. rewrite Hto.
      cbn [bind]. eauto.
Qed.

Lemma generate_rules_defined rules :
  Forall (fun rule =>
            exists name condition action_node,
              rule = rule_node (JStr name) condition action_node
              /\ every_node handled_node condition = true
              /\ every_node str_names condition = true)
         rules ->
  forall self code, exists code', generate_rules self rules code = (Ok code', self).
Proof.
  induction 1 as [ | rule rest (name & condition & action_node & -> & Hh & Hs) _ IH ];
    intros self code; simpl; [ eauto | ].
  destruct (proj1 (generate_condition_js_defined condition) Hh Hs) as [text Htext].
  unfold generate_rule, rule_node. cbn [getitem lookup String.eqb Ascii.eqb Bool.eqb].
  cbn [bind]. rewrite Htext. rewrite add_indent_cancel.
  destruct (str_eq (JStr name) "entry_long_rule"); [ apply IH | ].
  destruct (str_eq (JStr name) "exit_long_rule"); apply IH.
Qed.

Lemma conditions_of_rule_nodes ty symbol indicators rules (P : json -> Prop) :
  Forall (fun rule =>
            exists name condition action_node,
              rule = rule_node name condition action_node /\ P condition) rules ->
  Forall P (conditions_of (JObj [("type", ty); ("symbol", symbol);
                                 ("indicators", indicators); ("rules", JArr rules)])).
Proof.
  unfold conditions_of. cbn [getitem lookup String.eqb Ascii.eqb Bool.eqb].
  induction 1 as [ | rule rest (name & condition & action_node & -> & HP) _ IH ];
    simpl; [ constructor | ].
  constructor; assumption.
Qed.

(** The rules of a returned AST are Rule dicts, each with the lowering of
    one of the triggers as its condition. *)
Lemma transform_strategy_rules config ast :
  transform_strategy config = Ok ast ->
  exists self symbol indicators rules,
    ast = JObj [("type", JStr "TradingStrategy"); ("symbol", symbol);
                ("indicators", indicators); ("rules", JArr rules)]
    /\ Forall (fun rule =>
                 exists name condition action_node trigger,
                   rule = rule_node (JStr name) condition action_node
                   /\ _transform_trigger_conditions self trigger = Ok condition)
              rules.
Proof.
  intros H.
  apply transform_strategy_inv in H
    as (self & indicators & rules & _ & _ & _ & _ & Hrules & ->).
  unfold _transform_triggers in Hrules.
  apply bind_ok in Hrules as (triggers' & _ & Hrules).
  apply bind_ok in Hrules as (triggers & _ & Hrules).
  apply bind_ok in Hrules as (result & Hloop & Hrules). injection Hrules as <-.
  apply transform_triggers_loop_spec in Hloop as (rules & -> & Hspec).
  exists self, (symbol self), indicators, rules. split; [ reflexivity | ].
  eapply Forall_impl; [ | exact (rules_of_rule_nodes _ _ _ _ Hspec) ].
  intros rule (name & c & a & t & -> & _ & Ht). eauto 8.
Qed.

(** C10 (amended). In an AST returned by [transform_strategy], every node
    of every rule condition is one a branch of [generate_condition_js]
    handles: a LogicalExpression with its operator and its list of
    operands, or a Comparison whose operator is a key of the Emitter's
    table and whose sides are Literal, PriceReference or
    IndicatorReference nodes.  When moreover the name of every
    IndicatorReference is a str, [generate] on that AST returns a text. *)
Theorem emit_defined_on_normalized (config ast : json) :
  transform_strategy config = Ok ast ->
  Forall (fun c => every_node handled_node c = true) (conditions_of ast)
  /\ (Forall (fun c => every_node str_names c = true) (conditions_of ast) ->
      exists text, fst (generate (AstToCode.__init__ ast)) = Ok text).
Proof.
  intros H.
  apply transform_strategy_rules in H as (self & symbol & indicators & rules & -> & Hrules).
  assert (Hhandled :
            Forall (fun rule =>
                      exists name condition action_node,
                        rule = rule_node (JStr name) condition action_node
                        /\ every_node handled_node condition = true) rules).
  { eapply Forall_impl; [ | exact Hrules ].
    intros rule (name & c & a & t & -> & Ht). do 3 eexists. split; [ reflexivity | ].
    eapply _transform_trigger_conditions_every_node; [ | | exact Ht ].
    - intros; now apply handled_node_comparison.
    - intros; apply handled_node_logical. }
  split.
  - apply conditions_of_rule_nodes.
    eapply Forall_impl; [ | exact Hhandled ].
    intros rule (name & c & a & -> & Hc). eauto.
  - intros Hnames.
    assert (Hboth :
              Forall (fun rule =>
                        exists name condition action_node,
                          rule = rule_node (JStr name) condition action_node
                          /\ every_node handled_node condition = true
                          /\ every_node str_names condition = true) rules).
    { clear Hrules. revert Hnames. unfold conditions_of.
      cbn [getitem lookup String.eqb Ascii.eqb Bool.eqb].
      induction Hhandled as [ | rule rest (name & c & a & -> & Hc) _ IH ];
        intros Hnames; constructor.
      - simpl in Hnames. inversion Hnames; subst. eauto 6.
      - apply IH. simpl in Hnames. now inversion Hnames. }
    unfold generate, AstToCode.__init__. cbn [ast getitem lookup String.eqb Ascii.eqb Bool.eqb].
    cbn [add_indent ast bind iter getitem lookup String.eqb Ascii.eqb Bool.eqb].
    match goal with
    | |- context [generate_rules ?s rules ?c] =>
        destruct (generate_rules_defined rules Hboth s c) as [code' ->]
    end.
    simpl. eauto.
Qed.

Lemma emit_defined_on_normalized_witness :
  transform_strategy Main.original_strategy = Ok sample_ast
  /\ Forall (fun c => every_node handled_node c = true) (conditions_of sample_ast)
  /\ exists text, fst (generate (AstToCode.__init__ sample_ast)) = Ok text.
Proof.
  assert (H : transform_strategy Main.original_strategy = Ok sample_ast)
    by (vm_compute; reflexivity).
  destruct (emit_defined_on_normalized _ _ H) as [Hhandled Hemit].
  split; [ exact H | ]. split; [ exact Hhandled | ].
  apply Hemit. vm_compute. repeat constructor.
Defined.

(** C10, as stated, fails when a condition names an indicator by a value
    that is not a str: [transform_strategy] returns an AST, and
    [generate] raises AttributeError at [val['name'].replace]. *)
Lemma emit_raises_on_numeric_indicator :
  exists ast,
    transform_strategy numeric_indicator_strategy = Ok ast
    /\ conditions_of ast
       = [comparison_node (indicator_ref_node (JNum 5)) ComparisonOp.GREATER_THAN
                          (literal_node (JNum 0))]
    /\ fst (generate (AstToCode.__init__ ast)) = Raise AttributeError.
Proof.
  eexists. split; [ vm_compute; reflexivity | ].
  split; vm_compute; reflexivity.
Qed.

(** * Further properties of the two stages *)

(** ** The id maps of [__init__] *)

Lemma dict_get_dict_set d key v k :
  dict_get (dict_set d key v) k = if key_eq key k then Some v else dict_get d k.
Proof.
  induction d as [ | [k0 w] rest IH ]; simpl; [ reflexivity | ].
  destruct (key_eq k0 key) eqn:E0; simpl.
  - destruct (key_eq k0 k) eqn:E1.
    + now rewrite (key_eq_trans _ _ _ (key_eq_sym _ _ E0) E1).
    + destruct (key_eq key k) eqn:E2; [ | reflexivity ].
      now rewrite (key_eq_trans _ _ _ E0 E2) in E1.
  - destruct (key_eq k0 k) eqn:E1.
    + destruct (key_eq key k) eqn:E2; [ | reflexivity ].
      now rewrite (key_eq_trans _ _ _ E1 (key_eq_sym _ _ E2)) in E0.
    + exact IH.
Qed.

Lemma id_map_last_with_id items :
  forall acc m k,
    id_map items acc = Ok m ->
    dict_get m k = last_with_id k items (dict_get acc k).
Proof.
  induction items as [ | item rest IH ]; simpl; intros acc m k H.
  - now injection H as <-.
  - apply bind_ok in H as (key & Hkey & H).
    destruct (hashable key); [ | discriminate ].
    rewrite (IH _ _ k H), dict_get_dict_set. unfold has_id_equal. now rewrite Hkey.
Qed.

(** X1. In the action map that [__init__] builds, looking an id up gives
    the last action of the configuration's list whose [id] equals it, and
    nothing when no action has that id: among duplicates the last
    definition wins. *)
Theorem id_map_last_wins (config : json) (items : list json) (m : Py.dict) :
  (actions <- get config "actions" (JArr []) ;; iter actions) = Ok items ->
  _build_actions_map config = Ok m ->
  forall k, dict_get m k = last_with_id k items None.
Proof.
  unfold _build_actions_map. intros Hitems H k.
  apply bind_ok in Hitems as (actions & Hget & Hiter).
  rewrite Hget in H. cbn [bind] in H. rewrite Hiter in H. cbn [bind] in H.
  exact (id_map_last_with_id _ _ _ k H).
Qed.

Lemma id_map_last_wins_witness :
  exists m,
    _build_actions_map duplicate_id_strategy = Ok m
    /\ dict_get m (JStr "entry_long")
       = Some (JObj [("id", JStr "entry_long"); ("type", JStr "exit")])
    /\ dict_get m (JStr "exit_long") = None.
Proof.
  eexists. split; [ reflexivity | ].
  split; rewrite (id_map_last_wins duplicate_id_strategy _ _ eq_refl eq_refl);
    reflexivity.
Defined.

Lemma id_map_ok_iff items :
  forall acc,
    (exists m, id_map items acc = Ok m)
    <-> Forall (fun item => dict_with_id item = true) items.
Proof.
  induction items as [ | item rest IH ]; simpl; intros acc.
  - split; [ constructor | eauto ].
  - split.
    + intros [m H]. apply bind_ok in H as (key & Hkey & H).
      destruct (hashable key) eqn:Hhash; [ | discriminate ].
      constructor; [ | apply (IH (dict_set acc key item)); eauto ].
      destruct item as [ | | | | | fields ]; try discriminate.
      simpl in Hkey |- *. unfold has_id.
      destruct (lookup "id" fields); [ | discriminate ]. now injection Hkey as ->.
    + intros HF. inversion HF as [ | x xs Hitem Hrest ]; subst.
      destruct item as [ | | | | | fields ]; try discriminate.
      simpl in Hitem |- *. unfold has_id in Hitem.
      destruct (lookup "id" fields) as [id | ]; [ | discriminate ].
      cbn [bind]. rewrite Hitem. now apply IH.
Qed.

(** X2. [_build_actions_map] (and likewise [_build_indicators_map])
    returns a map exactly when every item of the list is a dict with an
    [id] whose value is hashable; otherwise [__init__] raises. *)
Theorem id_map_defined_iff (config : json) (items : list json) :
  (actions <- get config "actions" (JArr []) ;; iter actions) = Ok items ->
  ((exists m, _build_actions_map config = Ok m)
   <-> Forall (fun item => dict_with_id item = true) items)
  /\ (~ Forall (fun item => dict_with_id item = true) items ->
      exists e, JsonToAst.__init__ config = Raise e).
Proof.
  intros H. apply bind_ok in H as (actions & Hget & Hiter).
  assert (Hiff : (exists m, _build_actions_map config = Ok m)
                 <-> Forall (fun item => dict_with_id item = true) items).
  { unfold _build_actions_map. rewrite Hget. cbn [bind]. rewrite Hiter. cbn [bind].
    apply id_map_ok_iff. }
  split; [ exact Hiff | ].
  intros Hnot. unfold JsonToAst.__init__.
  destruct (get config "symbols" JNull) as [symbols | e]; [ | simpl; eauto ].
  cbn [bind].
  match goal with
  | |- context [bind ?r _] => destruct r as [symbol | e]; [ | simpl; eauto ]
  end.
  cbn [bind].
  destruct (_build_indicators_map config) as [imap | e]; [ | simpl; eauto ].
  cbn [bind].
  destruct (_build_actions_map config) as [amap | e]; [ | simpl; eauto ].
  contradiction Hnot. apply Hiff. eauto.
Qed.

Lemma id_map_defined_iff_witness :
  (exists m, _build_actions_map Main.original_strategy = Ok m)
  /\ exists e, JsonToAst.__init__ (JObj [("actions", JArr [JObj []])]) = Raise e.
Proof.
  split.
  - apply (proj1 (id_map_defined_iff Main.original_strategy
                    [Main.entry_long; Main.exit_long] eq_refl)).
    repeat constructor.
  - apply (proj2 (id_map_defined_iff (JObj [("actions", JArr [JObj []])])
                    [JObj []] eq_refl)).
    intros H. inversion H as [ | x xs Hx _ ]. discriminate Hx.
Defined.

(** ** The four typed conditions *)

(** X3. On dict params, [_transform_price_condition] always returns the
    comparison of the price of the strategy symbol with the threshold
    (default 0); its two branches select the operator by one mapping
    (below: LESS_THAN, above: GREATER_THAN, anything else: EQUALS) of one
    word, [direction] for a cross and [event_type] otherwise, so a cross
    lowers to the same node as the plain event of its direction. *)
Theorem price_move_lowering (self : StrategyTransformer) (params : list (string * json)) :
  _transform_price_condition self (JObj params)
  = Ok (comparison_node (price_ref_node (symbol self))
                        (operator_of_word (deciding_word params))
                        (literal_node (lookup_default params "threshold" (JNum 0))))
  /\ forall word threshold,
      _transform_price_condition self
        (JObj [("event_type", JStr "cross"); ("threshold", threshold);
               ("direction", JStr word)])
      = _transform_price_condition self
          (JObj [("event_type", JStr word); ("threshold", threshold)]).
Proof.
  assert (H : forall pf,
             _transform_price_condition self (JObj pf)
             = Ok (comparison_node (price_ref_node (symbol self))
                                   (operator_of_word (deciding_word pf))
                                   (literal_node (lookup_default pf "threshold" (JNum 0))))).
  { intros pf. unfold _transform_price_condition, deciding_word, operator_of_word, get.
    cbn [bind].
    destruct (str_eq (lookup_default pf "event_type" (JStr "")) "cross");
      [ reflexivity | ].
    destruct (lookup_default pf "event_type" (JStr "")) as [ | | | s | | ];
      try reflexivity.
    unfold str_eq. destruct (String.eqb_spec s "above") as [-> | _]; reflexivity. }
  split; [ apply H | ].
  intros word threshold. rewrite !H. unfold deciding_word, lookup_default. cbn.
  destruct (String.eqb_spec word "cross") as [-> | _]; reflexivity.
Qed.

(** X4. On dict params, [_transform_price_comparison] and
    [_transform_indicator_comparison] raise TypeError when [operator] is a
    list or a dict; otherwise they return a comparison whose operator is
    the [op_map] entry of the token, GREATER_THAN for a missing token and
    for any value that is not one of the six tokens. *)
Theorem operator_token_lowering (self : StrategyTransformer)
        (params : list (string * json)) :
  let operator := lookup_default params "operator" (JStr ">") in
  if hashable operator then
    _transform_price_comparison self (JObj params)
    = Ok (comparison_node (price_ref_node (symbol self)) (operator_of_token operator)
                          (literal_node (lookup_default params "value" (JNum 0))))
    /\ exists right,
        _transform_indicator_comparison self (JObj params)
        = Ok (comparison_node
                (indicator_ref_node (lookup_default params "indicator1" (JStr "")))
                (operator_of_token operator) right)
        /\ value_node right
  else
    _transform_price_comparison self (JObj params) = Raise TypeError
    /\ _transform_indicator_comparison self (JObj params) = Raise TypeError.
Proof.
  unfold _transform_price_comparison, _transform_indicator_comparison, get, op_map_get,
    operator_of_token.
  cbn [bind]. cbv zeta.
  destruct (hashable (lookup_default params "operator" (JStr ">"))).
  - cbn [bind]. split; [ reflexivity | ]. eexists. split; [ reflexivity | ].
    destruct (truthy _); [ constructor | ].
    destruct (lookup_default params "value" JNull); constructor.
  - split; reflexivity.
Qed.

(** X5. A condition with one of the four recognized [type] tags whose
    [params] is present and is not a dict (a number, a str, a list, null)
    raises AttributeError, whatever else the condition holds. *)
Theorem typed_condition_needs_dict_params (self : StrategyTransformer)
        (fields : list (string * json)) (params : json) :
  recognized_type (lookup_default fields "type" (JStr "")) = true ->
  lookup "params" fields = Some params ->
  (forall pf, params <> JObj pf) ->
  _transform_condition self (JObj fields) = Raise AttributeError.
Proof.
  unfold recognized_type. intros Hty Hparams Hnot. cbn [_transform_condition].
  unfold lookup_default at 2 4 6 8. rewrite Hparams.
  assert (H4 : _transform_price_condition self params = Raise AttributeError
               /\ _transform_indicator_comparison self params = Raise AttributeError
               /\ _transform_indicator_event self params = Raise AttributeError
               /\ _transform_price_comparison self params = Raise AttributeError).
  { destruct params as [ | | | | | pf ]; try (repeat split; reflexivity).
    now contradiction (Hnot pf). }
  destruct H4 as (H1 & H2 & H3 & H4).
  destruct (str_eq _ "price_move"); [ exact H1 | ].
  destruct (str_eq _ "indicator_comparison"); [ exact H2 | ].
  destruct (str_eq _ "indicator_event"); [ exact H3 | ].
  destruct (str_eq _ "price_comparison"); [ exact H4 | discriminate ].
Qed.

Lemma typed_condition_needs_dict_params_witness :
  _transform_condition bare_transformer
    (JObj [("type", JStr "price_move"); ("params", JNum 430)])
  = Raise AttributeError.
Proof.
  apply (typed_condition_needs_dict_params bare_transformer _ (JNum 430));
    [ reflexivity | reflexivity | discriminate ].
Defined.

(** X6. On dict params, [_transform_indicator_event] looks at [operator]
    only when [event_type] is not cross and neither [event_type] nor
    [direction] is above or below, and [operator] is truthy.  It raises,
    with TypeError, exactly when it looks at an [operator] that is a list
    or a dict; in every other case it returns the comparison of the
    indicator with the threshold (default 0), with the operator of the
    token when it looked at one. *)
Theorem indicator_event_lowering (self : StrategyTransformer)
        (params : list (string * json)) :
  let operator := lookup_default params "operator" JNull in
  if operator_consulted params then
    if hashable operator then
      _transform_indicator_event self (JObj params)
      = Ok (comparison_node
              (indicator_ref_node (lookup_default params "indicator" (JStr "")))
              (operator_of_token operator)
              (literal_node (lookup_default params "threshold" (JNum 0))))
    else _transform_indicator_event self (JObj params) = Raise TypeError
  else
    exists op,
      _transform_indicator_event self (JObj params)
      = Ok (comparison_node
              (indicator_ref_node (lookup_default params "indicator" (JStr "")))
              op
              (literal_node (lookup_default params "threshold" (JNum 0)))).
Proof.
  unfold _transform_indicator_event, operator_consulted, get, op_map_get,
    operator_of_token.
  cbn [bind]. cbv zeta.
  destruct (str_eq (lookup_default params "event_type" (JStr "")) "cross");
    cbn [negb andb bind]; [ eauto | ].
  destruct (_ || _); cbn [negb andb bind]; [ eauto | ].
  destruct (_ || _); cbn [negb andb bind]; [ eauto | ].
  destruct (truthy _); cbn [bind]; [ | eauto ].
  destruct (hashable _); reflexivity.
Qed.

(** ** Indicators and the symbol *)

Lemma transform_indicators_loop_spec items :
  forall result result',
    transform_indicators_loop items result = Ok result' ->
    exists nodes,
      result' = (result ++ nodes)%list /\ Forall2 lowered_indicator items nodes.
Proof.
  induction items as [ | indicator rest IH ]; simpl; intros result result' H.
  - injection H as <-. exists []. split; [ now rewrite app_nil_r | constructor ].
  - apply bind_ok in H as (node & Hnode & H).
    apply IH in H as (nodes & -> & Hnodes).
    exists (node :: nodes). split; [ unfold append; now rewrite <- app_assoc | ].
    constructor; [ | exact Hnodes ].
    unfold transform_indicator in Hnode.
    destruct indicator as [ | | | | | fields ]; try discriminate.
    cbn [getitem get] in Hnode.
    destruct (lookup "id" fields) as [id | ] eqn:Eid; [ | discriminate ].
    destruct (lookup "type" fields) as [ [ | | | ty | | ] | ] eqn:Ety;
      try discriminate.
    injection Hnode as <-. exists fields, id, ty. auto.
Qed.

(** X7. The indicators of a returned AST are the indicators of the
    configuration, one node each and in the same order: the [id] as name,
    the [type] in upper case, the [params] (an empty dict when missing);
    any other key of the indicator is dropped. *)
Theorem indicators_follow_configuration (config ast : json) :
  transform_strategy config = Ok ast ->
  exists items nodes,
    (indicators <- get config "indicators" (JArr []) ;; iter indicators) = Ok items
    /\ getitem ast "indicators" = Ok (JArr nodes)
    /\ Forall2 lowered_indicator items nodes
    /\ length nodes = length items.
Proof.
  intros H.
  apply transform_strategy_inv in H
    as (self & indicators & rules & _ & Hstrategy & _ & Hind & _ & ->).
  unfold _transform_indicators in Hind. rewrite Hstrategy in Hind.
  apply bind_ok in Hind as (v & Hget & Hind).
  apply bind_ok in Hind as (items & Hiter & Hind).
  apply bind_ok in Hind as (result & Hloop & Hind). injection Hind as <-.
  apply transform_indicators_loop_spec in Hloop as (nodes & -> & Hnodes).
  exists items, nodes. repeat split.
  - rewrite Hget. exact Hiter.
  - exact Hnodes.
  - symmetry. exact (Forall2_length Hnodes).
Qed.

Lemma indicators_follow_configuration_witness :
  exists nodes,
    getitem sample_ast "indicators" = Ok (JArr nodes) /\ length nodes = 3%nat.
Proof.
  assert (H : transform_strategy Main.original_strategy = Ok sample_ast)
    by (vm_compute; reflexivity).
  destruct (indicators_follow_configuration _ _ H)
    as (items & nodes & Hitems & Hnodes & _ & Hlength).
  injection Hitems as <-. exists nodes. split; [ exact Hnodes | exact Hlength ].
Defined.

(** X8. The symbol of a returned AST is the first element of [symbols]
    when that is a non-empty list, the first character when it is a
    non-empty str, and [UNKNOWN] when [symbols] is missing or falsy (an
    empty list, an empty str, null).  A configuration that is not a dict
    raises AttributeError. *)
Theorem symbol_resolution (config ast : json) :
  transform_strategy config = Ok ast ->
  exists fields,
    config = JObj fields
    /\ getitem ast "symbol"
       = Ok (resolved_symbol (lookup_default fields "symbols" JNull)).
Proof.
  intros H.
  apply transform_strategy_inv in H
    as (self & indicators & rules & Hinit & _ & _ & _ & _ & ->).
  destruct config as [ | | | | | fields ]; try discriminate.
  exists fields. split; [ reflexivity | ].
  unfold JsonToAst.__init__ in Hinit. cbn [get bind] in Hinit.
  apply bind_ok in Hinit as (sym & Hsym & Hinit).
  apply bind_ok in Hinit as (imap & _ & Hinit).
  apply bind_ok in Hinit as (amap & _ & Hinit). injection Hinit as <-.
  cbn [getitem lookup String.eqb Ascii.eqb Bool.eqb symbol]. f_equal.
  revert Hsym. unfold getitem, lookup_default.
  destruct (lookup "symbols" fields) as [symbols | ]; [ | now intros [= <-] ].
  destruct symbols as [ | [] | n | [ | c s] | [ | x xs] | [ | kv kvs] ];
    simpl; try congruence.
  destruct (n =? 0)%Z; simpl; congruence.
Qed.

Lemma symbol_resolution_witness :
  getitem sample_ast "symbol" = Ok (JStr "TSLA").
Proof.
  assert (H : transform_strategy Main.original_strategy = Ok sample_ast)
    by (vm_compute; reflexivity).
  destruct (symbol_resolution _ _ H) as (fields & Hfields & Hsymbol).
  injection Hfields as <-. exact Hsymbol.
Defined.

(** ** Rules *)

Lemma rules_of_length self i triggers rules :
  rules_of self i triggers rules ->
  exists references,
    Forall2 (fun trigger action_ids => referenced_ids trigger = Ok action_ids)
            triggers references
    /\ length rules = length (filter (resolves self) (concat references)).
Proof.
  induction 1 as [ | i trigger triggers condition action_ids rules_here rules_after
                     _ Hids Hhere _ (references & Hrefs & Hlength) ].
  - exists []. split; [ constructor | reflexivity ].
  - exists (action_ids :: references). split; [ now constructor | ].
    simpl. rewrite filter_app, !length_app, Hlength.
    now rewrite (Forall2_length Hhere).
Qed.

(** X9. A returned AST has as many rules as the triggers hold references
    to action ids that are present in the action set, so at most as many
    as they hold references; a trigger without [actions], or whose ids
    are all absent, yields no rule. *)
Theorem rules_count (config ast : json) :
  transform_strategy config = Ok ast ->
  exists self triggers references rules,
    JsonToAst.__init__ config = Ok self
    /\ (triggers' <- get config "triggers" (JArr []) ;; iter triggers') = Ok triggers
    /\ Forall2 (fun trigger action_ids => referenced_ids trigger = Ok action_ids)
               triggers references
    /\ getitem ast "rules" = Ok (JArr rules)
    /\ length rules = length (filter (resolves self) (concat references))
    /\ (length rules <= length (concat references))%nat.
Proof.
  intros H.
  apply transform_strategy_inv in H
    as (self & indicators & rules & Hinit & Hstrategy & _ & _ & Hrules & ->).
  unfold _transform_triggers in Hrules. rewrite Hstrategy in Hrules.
  apply bind_ok in Hrules as (triggers' & Hget & Hrules).
  apply bind_ok in Hrules as (triggers & Hiter & Hrules).
  apply bind_ok in Hrules as (result & Hloop & Hrules). injection Hrules as <-.
  apply transform_triggers_loop_spec in Hloop as (rules & -> & Hspec).
  apply rules_of_length in Hspec as (references & Hrefs & Hlength).
  exists self, triggers, references, rules. repeat split.
  - exact Hinit.
  - rewrite Hget. exact Hiter.
  - exact Hrefs.
  - exact Hlength.
  - rewrite Hlength. apply filter_length_le.
Qed.

Lemma rules_count_witness :
  exists rules, getitem sample_ast "rules" = Ok (JArr rules) /\ (length rules <= 2)%nat.
Proof.
  assert (H : transform_strategy Main.original_strategy = Ok sample_ast)
    by (vm_compute; reflexivity).
  destruct (rules_count _ _ H)
    as (self & triggers & references & rules & _ & Htriggers & Hrefs & Hrules & _ & Hle).
  exists rules. split; [ exact Hrules | ].
  injection Htriggers as <-.
  inversion Hrefs as [ | t1 r1 ts1 rs1 H1 Hrest1 ]; subst.
  inversion Hrest1 as [ | t2 r2 ts2 rs2 H2 Hrest2 ]; subst.
  inversion Hrest2; subst.
  injection H1 as <-. injection H2 as <-. exact Hle.
Defined.

(** X10. A trigger that is not a dict (a str, a list, a number, null)
    makes [_transform_triggers] raise, with TypeError or AttributeError:
    no rule is produced for it and none for the triggers after it. *)
Theorem trigger_must_be_dict (self : StrategyTransformer) (i : nat)
        (trigger : json) (rest result : list json) :
  (forall fields, trigger <> JObj fields) ->
  transform_triggers_loop self i (trigger :: rest) result = Raise TypeError
  \/ transform_triggers_loop self i (trigger :: rest) result = Raise AttributeError.
Proof.
  intros Hnot. cbn [transform_triggers_loop]. unfold _transform_trigger_conditions.
  destruct trigger as [ | b | n | s | items | fields ];
    try (left; reflexivity); [ | | now contradiction (Hnot fields) ].
  - cbn [contains bind].
    destruct (is_substring "and" s); [ left; reflexivity | ].
    destruct (is_substring "or" s); [ left; reflexivity | ].
    cbn [iter bind]. destruct (existsb not_reserved (chars s)); right; reflexivity.
  - cbn [contains bind].
    destruct (existsb _ items); [ left; reflexivity | ].
    destruct (existsb _ items); [ left; reflexivity | ].
    cbn [iter bind]. destruct (existsb not_reserved items); right; reflexivity.
Qed.

Lemma trigger_must_be_dict_witness :
  transform_triggers_loop bare_transformer 0 [JStr "entry_long"] []
  = Raise AttributeError.
Proof.
  destruct (trigger_must_be_dict bare_transformer 0 (JStr "entry_long") [] [])
    as [H | H]; [ discriminate | discriminate H | exact H ].
Defined.

(** ** Actions and rule names *)

Lemma upper_char_idempotent c : upper_char (upper_char c) = upper_char c.
Proof.
  destruct c as [[] [] [] [] [] [] [] []]; reflexivity.
Qed.

Lemma upper_str_idempotent s : upper_str (upper_str s) = upper_str s.
Proof.
  induction s as [ | c s IH ]; simpl; [ reflexivity | ].
  now rewrite upper_char_idempotent, IH.
Qed.

Lemma upper_ok v w :
  upper v = Ok w -> exists s, w = JStr s /\ upper_str s = s.
Proof.
  destruct v as [ | | | s | | ]; try discriminate. intros [= <-].
  exists (upper_str s). split; [ reflexivity | apply upper_str_idempotent ].
Qed.

Lemma upper_ok_exact v w :
  upper v = Ok w -> exists s, v = JStr s /\ w = JStr (upper_str s).
Proof.
  destruct v as [ | | | s | | ]; try discriminate. intros [= <-]. eauto.
Qed.

(** X11. The OrderAction of a lowered action carries strs in upper case:
    its [action_type] is OPEN_POSITION for the type [entry],
    CLOSE_POSITION for [exit] and otherwise the action's type upper-cased
    (the empty str when the type is missing); the [direction] of its
    Position is the action's direction upper-cased, whatever word it is,
    and LONG when the direction is missing or falsy; its [order_type] is
    the order's type (default [market]) upper-cased.  Upper-casing any
    of the three again changes nothing. *)
Theorem action_strings_upper_case (self : StrategyTransformer) (action node : json) :
  _transform_action self action = Ok node ->
  exists action_type position direction order_type,
    getitem node "type" = Ok (JStr "OrderAction")
    /\ getitem node "action_type" = Ok (JStr action_type)
    /\ upper_str action_type = action_type
    /\ getitem node "position" = Ok position
    /\ getitem position "type" = Ok (JStr "Position")
    /\ getitem position "direction" = Ok (JStr direction)
    /\ upper_str direction = direction
    /\ getitem position "order_type" = Ok (JStr order_type)
    /\ upper_str order_type = order_type
    /\ (forall d, get action "direction" (JStr "") = Ok d -> truthy d = false ->
        direction = "LONG")
    /\ (forall d, get action "direction" (JStr "") = Ok d -> truthy d = true ->
        exists word, d = JStr word /\ direction = upper_str word)
    /\ (exists ty,
           get action "type" (JStr "") = Ok (JStr ty)
           /\ action_type = if (ty =? "entry") then "OPEN_POSITION"
                            else if (ty =? "exit") then "CLOSE_POSITION"
                            else upper_str ty)
    /\ (exists order ty,
           get action "order" (JObj []) = Ok order
           /\ get order "type" (JStr "market") = Ok (JStr ty)
           /\ order_type = upper_str ty).
Proof.
  unfold _transform_action.
  destruct action as [ | | | | | fields ]; try discriminate.
  unfold get at 1 2 3 5 7 8. cbn [bind]. intros H.
  apply bind_ok in H as (act_type & Hact & H).
  apply bind_ok in H as (direction & Hdir & H).
  apply bind_ok in H as (position_symbol & _ & H).
  apply bind_ok in H as (order_type & Hty & H).
  apply bind_ok in H as (position_order_type & Hot & H).
  assert (Hact' : exists ty,
             lookup_default fields "type" (JStr "") = JStr ty
             /\ act_type = JStr (if (ty =? "entry") then "OPEN_POSITION"
                                 else if (ty =? "exit") then "CLOSE_POSITION"
                                 else upper_str ty)).
  { destruct (lookup_default fields "type" (JStr "")) as [ | | | ty | | ];
      try discriminate.
    exists ty. split; [ reflexivity | ]. unfold str_eq in Hact.
    destruct (ty =? "entry"); [ now injection Hact as <- | ].
    destruct (ty =? "exit"); [ now injection Hact as <- | ].
    now injection Hact as <-. }
  assert (Hdir' : exists s,
             direction = JStr s
             /\ (truthy (lookup_default fields "direction" (JStr "")) = false
                 -> s = "LONG")
             /\ (truthy (lookup_default fields "direction" (JStr "")) = true
                 -> exists word,
                     lookup_default fields "direction" (JStr "") = JStr word
                     /\ s = upper_str word)).
  { destruct (truthy _).
    - apply upper_ok_exact in Hdir as (word & Hword & ->).
      eexists. split; [ reflexivity | ]. split; [ discriminate | eauto ].
    - injection Hdir as <-. eexists. split; [ reflexivity | ].
      split; [ reflexivity | discriminate ]. }
  apply upper_ok_exact in Hot as (oty & -> & ->).
  destruct Hact' as (ty & Hty' & ->). destruct Hdir' as (d & -> & Hlong & Hword).
  assert (Hnode : exists position,
             node = JObj [("type", JStr "OrderAction");
                          ("action_type",
                           JStr (if (ty =? "entry") then "OPEN_POSITION"
                                 else if (ty =? "exit") then "CLOSE_POSITION"
                                 else upper_str ty));
                          ("position", JObj position)]
             /\ lookup "type" position = Some (JStr "Position")
             /\ lookup "direction" position = Some (JStr d)
             /\ lookup "order_type" position = Some (JStr (upper_str oty))).
  { destruct (str_eq _ "entry"); [ injection H as <-; eexists; repeat split | ].
    destruct (str_eq _ "exit"); injection H as <-; eexists; repeat split. }
  destruct Hnode as (position & -> & Hp1 & Hp2 & Hp3).
  eexists _, (JObj position), d, (upper_str oty).
  cbn [getitem lookup String.eqb Ascii.eqb Bool.eqb]. rewrite Hp1, Hp2, Hp3.
  assert (Hd : upper_str d = d).
  { destruct (truthy (lookup_default fields "direction" (JStr ""))).
    - destruct (Hword eq_refl) as (word & _ & ->). apply upper_str_idempotent.
    - now rewrite (Hlong eq_refl). }
  repeat split; try reflexivity.
  - destruct (ty =? "entry"); [ reflexivity | ].
    destruct (ty =? "exit"); [ reflexivity | apply upper_str_idempotent ].
  - exact Hd.
  - apply upper_str_idempotent.
  - intros d0 [= <-]. exact Hlong.
  - intros d0 [= <-]. exact Hword.
  - exists ty. cbn [get]. rewrite Hty'. split; reflexivity.
  - exists (lookup_default fields "order" (JObj [])), oty.
    split; [ reflexivity | ]. split; [ exact Hty | reflexivity ].
Qed.

Lemma action_strings_upper_case_witness :
  _transform_action bare_transformer hedge_action = Ok hedge_node
  /\ getitem hedge_node "action_type" = Ok (JStr "HEDGE")
  /\ exists position,
      getitem hedge_node "position" = Ok position
      /\ getitem position "direction" = Ok (JStr "SHORT").
Proof.
  assert (H : _transform_action bare_transformer hedge_action = Ok hedge_node)
    by reflexivity.
  split; [ exact H | ].
  destruct (action_strings_upper_case bare_transformer _ _ H)
    as (action_type & position & direction & order_type
        & _ & Hat & _ & Hposition & _ & Hdirection & _).
  split; [ reflexivity | ].
  exists position. split; [ exact Hposition | ].
  injection Hposition as <-. reflexivity.
Defined.

Lemma append_cancel_r (s s' t : string) :
  String.length s = String.length s' -> s ++ t = s' ++ t -> s = s'.
Proof.
  revert s'. induction s as [ | c s IH ]; intros [ | c' s' ]; simpl;
    try discriminate; [ reflexivity | ].
  intros [= Hlen] [= -> H]. f_equal. now apply IH.
Qed.

Lemma append_length (s t : string) :
  String.length (s ++ t) = (String.length s + String.length t)%nat.
Proof.
  induction s as [ | c s IH ]; simpl; [ reflexivity | now rewrite IH ].
Qed.

Lemma suffixed_name (s base : string) :
  s ++ "_rule" = base ++ "_rule" <-> s = base.
Proof.
  split; [ | now intros -> ].
  intros H. apply (append_cancel_r s base "_rule"); [ | exact H ].
  apply (f_equal String.length) in H. rewrite !append_length in H. lia.
Qed.

Lemma str_int_first n :
  exists c rest, str_int n = String c rest /\ c <> "e"%char /\ c <> "r"%char.
Proof.
  unfold str_int, NilZero.string_of_int, NilZero.string_of_uint.
  destruct (Z.to_int n) as [d | d]; [ destruct d | ];
    simpl; do 2 eexists; (split; [ reflexivity | split; discriminate ]).
Qed.

(** X12. The Emitter selects rules by name, and the name of a rule is
    [entry_long_rule] exactly when the referenced action id is the str
    [entry_long], and [exit_long_rule] exactly when it is the str
    [exit_long]: a rule for an id of any other value (another str, a
    number, a falsy id, which is named [rule_<index>]) is never emitted. *)
Theorem emitted_rule_names (i : nat) (action_id : json) :
  (rule_name i action_id = "entry_long_rule" <-> action_id = JStr "entry_long")
  /\ (rule_name i action_id = "exit_long_rule" <-> action_id = JStr "exit_long").
Proof.
  assert (Hfallback : forall name,
             "rule_" ++ str_int (Z.of_nat i) = name ++ "_rule" ->
             name = "entry_long" \/ name = "exit_long" -> False).
  { intros name H [-> | ->]; discriminate H. }
  assert (Hfirst : forall s c rest name,
             s = String c rest -> c <> "e"%char ->
             name = "entry_long" \/ name = "exit_long" ->
             s ++ "_rule" <> name ++ "_rule").
  { intros s c rest name -> Hc [-> | ->] [= Heq _]; now contradiction Hc. }
  assert (H : forall name,
             name = "entry_long" \/ name = "exit_long" ->
             (rule_name i action_id = name ++ "_rule" <-> action_id = JStr name)).
  { intros name Hname. unfold rule_name. split.
    - destruct action_id as [ | [] | n | s | items | fields ]; cbn [truthy str repr];
        intros H; try (now contradiction (Hfallback name H)).
      + exfalso.
        exact (Hfirst "True" "T"%char "rue" name eq_refl ltac:(discriminate) Hname H).
      + destruct (negb (n =? 0)%Z); [ | now contradiction (Hfallback name H) ].
        destruct (str_int_first n) as (c & rest & Hn & Hc & _).
        exfalso. exact (Hfirst _ c rest name Hn Hc Hname H).
      + destruct (negb (s =? "")); [ | now contradiction (Hfallback name H) ].
        f_equal. now apply suffixed_name.
      + destruct items; [ now contradiction (Hfallback name H) | ].
        exfalso. exact (Hfirst _ "["%char _ name eq_refl ltac:(discriminate) Hname H).
      + destruct fields; [ now contradiction (Hfallback name H) | ].
        exfalso. exact (Hfirst _ "{"%char _ name eq_refl ltac:(discriminate) Hname H).
    - intros ->. destruct Hname as [-> | ->]; reflexivity. }
  split; [ apply (H "entry_long") | apply (H "exit_long") ]; auto.
Qed.

(** ** The Emitter's tables and renderers *)

(** X13. [generate_comparison_operator] is defined exactly on the six
    values of [ComparisonOp], maps them to six different tokens, raises
    KeyError on any other hashable value and TypeError on a list or a
    dict: the two stages share one operator vocabulary. *)
Theorem operator_table_domain :
  (forall op text,
      generate_comparison_operator op = Ok text -> exists a, op = ComparisonOp.value a)
  /\ (forall a, exists text, generate_comparison_operator (ComparisonOp.value a) = Ok text)
  /\ (forall a b,
         generate_comparison_operator (ComparisonOp.value a)
         = generate_comparison_operator (ComparisonOp.value b) -> a = b)
  /\ (forall op,
         (forall a, op <> ComparisonOp.value a) ->
         generate_comparison_operator op
         = if hashable op then Raise KeyError else Raise TypeError).
Proof.
  assert (Hdom : forall op text,
             generate_comparison_operator op = Ok text ->
             exists a, op = ComparisonOp.value a).
  { intros op text. unfold generate_comparison_operator.
    destruct op as [ | | | s | | ]; try discriminate. cbn.
    destruct (String.eqb_spec s "LESS_THAN") as [-> | _];
      [ now exists ComparisonOp.LESS_THAN | ].
    destruct (String.eqb_spec s "GREATER_THAN") as [-> | _];
      [ now exists ComparisonOp.GREATER_THAN | ].
    destruct (String.eqb_spec s "LESS_THAN_OR_EQUAL") as [-> | _];
      [ now exists ComparisonOp.LESS_THAN_OR_EQUAL | ].
    destruct (String.eqb_spec s "GREATER_THAN_OR_EQUAL") as [-> | _];
      [ now exists ComparisonOp.GREATER_THAN_OR_EQUAL | ].
    destruct (String.eqb_spec s "EQUALS") as [-> | _];
      [ now exists ComparisonOp.EQUALS | ].
    destruct (String.eqb_spec s "NOT_EQUALS") as [-> | _];
      [ now exists ComparisonOp.NOT_EQUALS | discriminate ]. }
  split; [ exact Hdom | ]. split; [ | split ].
  - intros []; eexists; reflexivity.
  - intros [] []; intros H; try reflexivity; discriminate H.
  - intros op Hop.
    destruct (generate_comparison_operator op) as [text | e] eqn:E.
    + destruct (Hdom _ _ E) as [a ->]. now contradiction (Hop a).
    + revert E. unfold generate_comparison_operator.
      destruct (hashable op); [ | now intros [= <-] ].
      destruct (table_find operator_table op); [ discriminate | now intros [= <-] ].
Qed.

Lemma remove_char_absent c s : has_char c (remove_char c s) = false.
Proof.
  induction s as [ | d s IH ]; simpl; [ reflexivity | ].
  destruct (Ascii.eqb d c) eqn:E; [ exact IH | ]. simpl. now rewrite E, IH.
Qed.

Lemma remove_char_unchanged c s : has_char c s = false -> remove_char c s = s.
Proof.
  induction s as [ | d s IH ]; simpl; [ reflexivity | ].
  destruct (Ascii.eqb d c); simpl; [ discriminate | ]. intros H. now rewrite IH.
Qed.

Lemma remove_char_length c s :
  (String.length (remove_char c s) <= String.length s)%nat.
Proof.
  induction s as [ | d s IH ]; simpl; [ lia | ].
  destruct (Ascii.eqb d c); simpl; lia.
Qed.

Lemma remove_char_filter c s :
  list_ascii_of_string (remove_char c s)
  = filter (fun d => negb (Ascii.eqb d c)) (list_ascii_of_string s).
Proof.
  induction s as [ | d s IH ]; simpl; [ reflexivity | ].
  destruct (Ascii.eqb d c); simpl; [ exact IH | now rewrite IH ].
Qed.

(** X14. An IndicatorReference whose name is a str renders as that name
    with every underscore removed: the characters of the text are the
    characters of the name other than the underscore, in their order; so
    the text has no underscore, is no longer than the name, and is the
    name itself when the name has none.  A name that is not a str raises
    AttributeError. *)
Theorem indicator_reference_rendering (name : json) :
  match name with
  | JStr s =>
      exists text,
        get_value_js (indicator_ref_node name) = Ok text
        /\ list_ascii_of_string text
           = filter (fun c => negb (Ascii.eqb c "_")) (list_ascii_of_string s)
        /\ has_char "_" text = false
        /\ (String.length text <= String.length s)%nat
        /\ (has_char "_" s = false -> text = s)
  | _ => get_value_js (indicator_ref_node name) = Raise AttributeError
  end.
Proof.
  destruct name as [ | | | s | | ]; try reflexivity.
  exists (remove_char "_" s). split; [ reflexivity | ].
  split; [ apply remove_char_filter | ].
  split; [ apply remove_char_absent | ].
  split; [ apply remove_char_length | apply remove_char_unchanged ].
Qed.

Lemma mapM_then {A B C} (f : A -> Result B) (g : B -> C) (l : list A) (l' : list B) :
  mapM f l = Ok l' ->
  mapM (fun x => y <- f x ;; Ok (g y)) l = Ok (map g l').
Proof.
  revert l'. induction l as [ | x xs IH ]; simpl; intros l' H.
  - now injection H as <-.
  - apply bind_ok in H as (y & Hy & H). apply bind_ok in H as (ys & Hys & H).
    injection H as <-. rewrite Hy. cbn [bind]. now rewrite (IH _ Hys).
Qed.

Lemma group_rendering (op : LogicalOp.t) (operands : list json) (texts : list string) :
  mapM generate_condition_js operands = Ok texts ->
  generate_condition_js (group op operands)
  = Ok (group_text (match op with LogicalOp.AND => " && " | LogicalOp.OR => " || " end)
                   texts).
Proof.
  intros H.
  assert (Hnode : generate_condition_js (logical_node op operands)
                  = Ok (join (match op with
                              | LogicalOp.AND => " && "
                              | LogicalOp.OR => " || "
                              end) (map parenthesized texts))).
  { cbn [generate_condition_js logical_node].
    cbn [getitem lookup String.eqb Ascii.eqb Bool.eqb NodeType.value bind str_eq].
    cbn [find String.eqb Ascii.eqb Bool.eqb render_operands].
    pose proof (mapM_then generate_condition_js parenthesized _ _ H) as Hm.
    unfold parenthesized in Hm |- *. rewrite Hm. destruct op; reflexivity. }
  unfold group, group_text.
  destruct operands as [ | x [ | y rest ] ].
  - injection H as <-. exact Hnode.
  - simpl in H. apply bind_ok in H as (t & Ht & H). injection H as <-. exact Ht.
  - pose proof H as H'. simpl in H'.
    apply bind_ok in H' as (t & _ & H'). apply bind_ok in H' as (ts & Hts & H').
    apply bind_ok in Hts as (t2 & _ & Hts). apply bind_ok in Hts as (ts2 & _ & Hts).
    injection Hts as <-. injection H' as <-. exact Hnode.
Qed.

(** X15. Rendering commutes with the lowering of a group: when the
    members of a trigger's [and] list lower to nodes that render to some
    texts, the trigger lowers to a node that renders to the single text
    bare when there is one member, and otherwise to the texts, each in
    parentheses, joined by [ && ]; likewise with [ || ] for the [or] list
    of a trigger without [and]. *)
Theorem group_lowering_rendering (self : StrategyTransformer)
        (fields : list (string * json)) (members operands : list json)
        (texts : list string) :
  mapM (_transform_condition self) members = Ok operands ->
  mapM generate_condition_js operands = Ok texts ->
  (lookup "and" fields = Some (JArr members) ->
   exists e,
     _transform_trigger_conditions self (JObj fields) = Ok e
     /\ generate_condition_js e = Ok (group_text " && " texts))
  /\ (lookup "and" fields = None -> lookup "or" fields = Some (JArr members) ->
      exists e,
        _transform_trigger_conditions self (JObj fields) = Ok e
        /\ generate_condition_js e = Ok (group_text " || " texts)).
Proof.
  intros Hlower Hrender. unfold _transform_trigger_conditions. split.
  - intros Hand. cbn [contains getitem bind]. rewrite Hand. cbn [bind lower_members].
    rewrite Hlower. cbn [bind]. eexists. split; [ reflexivity | ].
    exact (group_rendering LogicalOp.AND _ _ Hrender).
  - intros Hand Hor. cbn [contains getitem bind]. rewrite Hand, Hor.
    cbn [bind lower_members]. rewrite Hlower. cbn [bind]. eexists.
    split; [ reflexivity | ].
    exact (group_rendering LogicalOp.OR _ _ Hrender).
Qed.

Lemma group_lowering_rendering_witness :
  exists e,
    _transform_trigger_conditions bare_transformer both_keys_trigger = Ok e
    /\ generate_condition_js e = Ok "(price < 1) && (price > 2)".
Proof.
  destruct (group_lowering_rendering bare_transformer
              [("and", JArr [price_comparison "<" 1; price_comparison ">" 2]);
               ("or", JArr [price_comparison "==" 3])]
              [price_comparison "<" 1; price_comparison ">" 2]
              _ _ eq_refl eq_refl) as [Hand _].
  exact (Hand eq_refl).
Defined.

(** ** [generate]: the rules it emits and the state it leaves *)

Lemma generate_rule_skipped self rule code :
  has_key "name" rule = true -> emitted rule = false ->
  generate_rule self rule code = (Ok code, self).
Proof.
  unfold has_key, emitted, generate_rule.
  destruct (getitem rule "name") as [name | e]; [ | discriminate ].
  intros _ H. apply orb_false_elim in H as [-> ->]. reflexivity.
Qed.

Lemma generate_rules_filter rules :
  Forall (fun rule => has_key "name" rule = true) rules ->
  forall self code,
    generate_rules self rules code = generate_rules self (filter emitted rules) code.
Proof.
  induction 1 as [ | rule rest Hname _ IH ]; intros self code; [ reflexivity | ].
  simpl. destruct (emitted rule) eqn:E.
  - simpl. destruct (generate_rule self rule code) as [[c | e] s]; [ apply IH | reflexivity ].
  - rewrite (generate_rule_skipped self rule code Hname E). apply IH.
Qed.

(** X16. [generate] emits a method only for the rules named
    [entry_long_rule] or [exit_long_rule]: the other rules, as long as
    they have a name, change nothing, and their conditions are not even
    rendered; an AST none of whose rules has one of the two names gives
    the class without methods. *)
Theorem other_rules_are_skipped (rules : list json) :
  Forall (fun rule => has_key "name" rule = true) rules ->
  (forall self code,
      generate_rules self rules code = generate_rules self (filter emitted rules) code)
  /\ (forall a symbol,
         getitem a "symbol" = Ok symbol ->
         getitem a "rules" = Ok (JArr rules) ->
         filter emitted rules = [] ->
         fst (generate (AstToCode.__init__ a)) = Ok (empty_class symbol)).
Proof.
  intros Hnames. split; [ now apply generate_rules_filter | ].
  intros a symbol Hsymbol Hrules Hnone.
  unfold generate, AstToCode.__init__. cbn [ast add_indent].
  rewrite Hsymbol, Hrules. cbn [bind iter].
  rewrite (generate_rules_filter rules Hnames), Hnone. reflexivity.
Qed.

Lemma other_rules_are_skipped_witness :
  getitem alert_ast "rules" = Ok (JArr alert_rules)
  /\ length alert_rules = 1%nat
  /\ fst (generate (AstToCode.__init__ alert_ast)) = Ok (empty_class (JStr "UNKNOWN")).
Proof.
  split; [ reflexivity | ]. split; [ reflexivity | ].
  assert (Hnames : Forall (fun rule => has_key "name" rule = true) alert_rules)
    by (repeat constructor).
  destruct (other_rules_are_skipped alert_rules Hnames) as [_ Hclass].
  apply Hclass; reflexivity.
Defined.

Lemma generate_rule_outcome self rule code :
  match generate_rule self rule code with
  | (Ok _, self') => rule_error rule = None /\ self' = self
  | (Raise e, self') =>
      rule_error rule = Some e
      /\ self' = if has_key "name" rule then add_indent 1 self else self
  end.
Proof.
  unfold generate_rule, rule_error, has_key.
  destruct (getitem rule "name") as [name | e0]; [ | now split ].
  destruct (str_eq name "entry_long_rule"); cbn [orb].
  { destruct (bind _ _); split; try reflexivity. apply add_indent_cancel. }
  destruct (str_eq name "exit_long_rule").
  { destruct (bind _ _); split; try reflexivity. apply add_indent_cancel. }
  now split.
Qed.

Lemma generate_rules_raise_outcome rules :
  forall self code e self',
    generate_rules self rules code = (Raise e, self') ->
    exists before rule after,
      rules = (before ++ rule :: after)%list
      /\ Forall (fun r => rule_error r = None) before
      /\ rule_error rule = Some e
      /\ self' = if has_key "name" rule then add_indent 1 self else self.
Proof.
  induction rules as [ | rule rest IH ]; simpl; intros self code e self' H;
    [ discriminate | ].
  pose proof (generate_rule_outcome self rule code) as Hrule.
  destruct (generate_rule self rule code) as [[c | e0] s].
  - destruct Hrule as [Hnone ->].
    apply IH in H as (before & r & after & -> & Hbefore & Hr & ->).
    exists (rule :: before), r, after. repeat split; auto.
  - injection H as <- <-. destruct Hrule as [Hsome ->].
    exists [], rule, rest. repeat split; auto.
Qed.

(** X17. [generate] does not restore the indentation counter when it
    raises.  When [self.ast['symbol']] raises, the generator is left as
    it was.  When reading or iterating [rules] raises, the counter is
    left one level up.  Otherwise the exception comes from the first
    rule on which the loop body raises: the counter is left one level up
    when that is at [rule['name']] (a rule that is not a dict, or has no
    name), and two levels up when the rule has one of the two names and
    the exception comes from [rule['condition']] or from rendering the
    condition. *)
Theorem generate_raise_leaves_indent (self : JavaScriptGenerator) (e : exn) :
  fst (generate self) = Raise e ->
  match getitem (ast self) "symbol" with
  | Raise e0 => e0 = e /\ snd (generate self) = self
  | Ok _ =>
      match (rules <- getitem (ast self) "rules" ;; iter rules) with
      | Raise e0 => e0 = e /\ snd (generate self) = add_indent 1 self
      | Ok rules =>
          exists before rule after,
            rules = (before ++ rule :: after)%list
            /\ Forall (fun r => rule_error r = None) before
            /\ rule_error rule = Some e
            /\ snd (generate self)
               = (if has_key "name" rule then add_indent 1 (add_indent 1 self)
                  else add_indent 1 self)
            /\ indent_level (snd (generate self))
               = (if has_key "name" rule then indent_level self + 2
                  else indent_level self + 1)%Z
      end
  end.
Proof.
  unfold generate.
  destruct (getitem (ast self) "symbol") as [symbol | e0];
    [ | intros [= ->]; now split ].
  change (ast (add_indent 1 self)) with (ast self).
  destruct (bind (getitem (ast self) "rules") _) as [rules | e0];
    [ | intros [= ->]; now split ].
  match goal with
  | |- context [generate_rules ?s ?r ?c] =>
      destruct (generate_rules s r c) as [[c' | e1] s'] eqn:E
  end; [ discriminate | ].
  intros [= ->].
  apply generate_rules_raise_outcome in E as (before & rule & after & -> & Hb & Hr & ->).
  exists before, rule, after. cbn [snd]. repeat split; auto.
  destruct (has_key "name" rule); simpl; lia.
Qed.

Lemma generate_raise_leaves_indent_witness :
  fst (generate (AstToCode.__init__ numeric_indicator_ast)) = Raise AttributeError
  /\ indent_level (snd (generate (AstToCode.__init__ numeric_indicator_ast))) = 2%Z.
Proof.
  assert (H : fst (generate (AstToCode.__init__ numeric_indicator_ast))
              = Raise AttributeError) by (vm_compute; reflexivity).
  split; [ exact H | ].
  pose proof (generate_raise_leaves_indent _ _ H) as Hlevel.
  assert (Hsymbol : getitem (ast (AstToCode.__init__ numeric_indicator_ast)) "symbol"
                    = Ok (JStr "UNKNOWN")) by (vm_compute; reflexivity).
  rewrite Hsymbol in Hlevel.
  destruct (bind (getitem (ast (AstToCode.__init__ numeric_indicator_ast)) "rules") _)
    as [rules | e0] eqn:Erules; [ | vm_compute in Erules; discriminate Erules ].
  destruct Hlevel as (before & rule & after & Hrules & _ & _ & _ & Hlevel).
  vm_compute in Erules. injection Erules as <-.
  destruct before as [ | b [ | b' before ] ]; try discriminate Hrules.
  injection Hrules as <- _. rewrite Hlevel. reflexivity.
Defined.

(** ** Triggers as conditions *)

Lemma mapM_ok_same_length {A B} (f : A -> Result B) (l : list A) (l' : list B) :
  mapM f l = Ok l' -> length l' = length l.
Proof.
  revert l'. induction l as [ | x xs IH ]; simpl; intros l' H.
  - now injection H as <-.
  - apply bind_ok in H as (y & _ & H). apply bind_ok in H as (ys & Hys & H).
    injection H as <-. simpl. f_equal. auto.
Qed.

Lemma reserved_keys_no_type fields :
  existsb not_reserved (map (fun kv => JStr (fst kv)) fields) = false ->
  lookup "type" fields = None.
Proof.
  induction fields as [ | [k v] rest IH ]; simpl; [ reflexivity | ].
  intros H. apply orb_false_elim in H as [Hk Hrest].
  destruct (String.eqb_spec k "type") as [-> | _]; [ discriminate Hk | auto ].
Qed.

Lemma untyped_plain_condition self fields :
  lookup "type" fields = None ->
  lookup "and" fields = None -> lookup "or" fields = None ->
  _transform_condition self (JObj fields) = Ok always_true.
Proof.
  intros Hty Hand Hor. cbn [_transform_condition]. unfold lookup_default at 1 3 5 7.
  rewrite Hty. cbn [str_eq String.eqb Ascii.eqb Bool.eqb].
  now rewrite !find_lookup, Hand, Hor.
Qed.

(** X18. A trigger dict lowers exactly as [_transform_condition] lowers
    it when its [type] is not one of the four recognized tags, and also
    when it has neither an [and] nor an [or] key (the search for a key
    outside [actions], [id], [name] never changes the result).  With a
    recognized [type], [_transform_condition] returns a Comparison and
    ignores any group key, whereas [_transform_trigger_conditions] gives
    the group precedence: the two levels rank [type] and [and]/[or] in
    opposite orders. *)
Theorem trigger_versus_condition (self : StrategyTransformer)
        (fields : list (string * json)) :
  (recognized_type (lookup_default fields "type" (JStr "")) = false
   \/ (lookup "and" fields = None /\ lookup "or" fields = None) ->
   _transform_trigger_conditions self (JObj fields)
   = _transform_condition self (JObj fields))
  /\ (recognized_type (lookup_default fields "type" (JStr "")) = true ->
      forall e, _transform_condition self (JObj fields) = Ok e -> is_comparison e = true)
  /\ (forall members,
         lookup "and" fields = Some (JArr members) -> length members <> 1%nat ->
         forall e, _transform_trigger_conditions self (JObj fields) = Ok e ->
                   is_logical e = true).
Proof.
  split; [ | split ].
  - intros H.
    destruct (lookup "and" fields) as [members | ] eqn:Eand.
    { destruct H as [H | [H _]]; [ | discriminate ].
      symmetry. apply _transform_condition_nested; [ exact H | left; congruence ]. }
    destruct (lookup "or" fields) as [members | ] eqn:Eor.
    { destruct H as [H | [_ H]]; [ | discriminate ].
      symmetry. apply _transform_condition_nested; [ exact H | right; congruence ]. }
    unfold _transform_trigger_conditions. cbn [contains bind iter].
    rewrite Eand, Eor. cbn [bind].
    destruct (existsb not_reserved _) eqn:Ekeys; [ reflexivity | ].
    symmetry. apply untyped_plain_condition; auto using reserved_keys_no_type.
  - unfold recognized_type. intros Hty e He. cbn [_transform_condition] in He.
    assert (Htyped : forall params,
               _transform_price_condition self params = Ok e
               \/ _transform_indicator_comparison self params = Ok e
               \/ _transform_indicator_event self params = Ok e
               \/ _transform_price_comparison self params = Ok e ->
               is_comparison e = true).
    { intros params H.
      apply typed_conditions_are_comparisons in H as (l & op & r & -> & _).
      reflexivity. }
    destruct (str_eq _ "price_move"); [ eauto | ].
    destruct (str_eq _ "indicator_comparison"); [ eauto | ].
    destruct (str_eq _ "indicator_event"); [ eauto 6 | ].
    destruct (str_eq _ "price_comparison"); [ eauto 6 | discriminate ].
  - intros members Hand Hlength e. unfold _transform_trigger_conditions.
    cbn [contains getitem bind]. rewrite Hand. cbn [bind lower_members].
    intros H. apply bind_ok in H as (operands & Hops & H). injection H as <-.
    apply mapM_ok_same_length in Hops. unfold group.
    destruct operands as [ | x [ | y rest ] ]; try reflexivity.
    simpl in Hops. now rewrite <- Hops in Hlength.
Qed.

Lemma trigger_versus_condition_witness :
  (exists e, _transform_condition bare_transformer typed_group_trigger = Ok e
             /\ is_comparison e = true)
  /\ (exists e, _transform_trigger_conditions bare_transformer typed_group_trigger = Ok e
                /\ is_logical e = true).
Proof.
  destruct (trigger_versus_condition bare_transformer
              [("type", JStr "price_comparison");
               ("params", JObj [("operator", JStr "<"); ("value", JNum 1)]);
               ("and", JArr [price_comparison ">" 2; price_comparison ">" 3])])
    as (_ & Hcondition & Htrigger).
  split; eexists; (split; [ reflexivity | ]).
  - apply Hcondition; reflexivity.
  - eapply Htrigger; [ reflexivity | discriminate | reflexivity ].
Defined.

(** ** The indicator map is never read *)

Section IndicatorsMap.
Variable self : StrategyTransformer.
Variable other : Py.dict.

Lemma _transform_condition_indicators_map c :
  _transform_condition (with_indicators_map self other) c = _transform_condition self c
  /\ lower_members (_transform_condition (with_indicators_map self other)) c
     = lower_members (_transform_condition self) c.
Proof.
  induction c as [ | b | n | s | items IH | fields IH ] using json_ind;
    try (split; reflexivity).
  - split; [ reflexivity | ]. simpl.
    induction IH as [ | x xs [Hx _] _ IHxs ]; simpl; [ reflexivity | ].
    now rewrite Hx, IHxs.
  - split; [ | reflexivity ]. cbn [_transform_condition].
    destruct (str_eq _ "price_move"); [ reflexivity | ].
    destruct (str_eq _ "indicator_comparison"); [ reflexivity | ].
    destruct (str_eq _ "indicator_event"); [ reflexivity | ].
    destruct (str_eq _ "price_comparison"); [ reflexivity | ].
    rewrite !find_lookup.
    destruct (lookup "and" fields) as [members | ] eqn:Eand; cbn [option_map].
    { destruct (proj1 (Forall_forall _ _) IH _ (lookup_In _ _ _ Eand)) as [_ Hm].
      cbn [snd] in Hm. now rewrite Hm. }
    destruct (lookup "or" fields) as [members | ] eqn:Eor; cbn [option_map].
    { destruct (proj1 (Forall_forall _ _) IH _ (lookup_In _ _ _ Eor)) as [_ Hm].
      cbn [snd] in Hm. now rewrite Hm. }
    reflexivity.
Qed.

Lemma _transform_trigger_conditions_indicators_map trigger :
  _transform_trigger_conditions (with_indicators_map self other) trigger
  = _transform_trigger_conditions self trigger.
Proof.
  unfold _transform_trigger_conditions.
  destruct (contains "and" trigger) as [[] | ]; cbn [bind]; [ | | reflexivity ].
  { destruct (getitem trigger "and") as [members | ]; cbn [bind]; [ | reflexivity ].
    now rewrite (proj2 (_transform_condition_indicators_map members)). }
  destruct (contains "or" trigger) as [[] | ]; cbn [bind]; [ | | reflexivity ].
  { destruct (getitem trigger "or") as [members | ]; cbn [bind]; [ | reflexivity ].
    now rewrite (proj2 (_transform_condition_indicators_map members)). }
  destruct (iter trigger) as [keys | ]; cbn [bind]; [ | reflexivity ].
  destruct (existsb not_reserved keys); [ | reflexivity ].
  apply _transform_condition_indicators_map.
Qed.

Lemma transform_actions_loop_indicators_map i condition action_ids :
  forall result,
    transform_actions_loop (with_indicators_map self other) i condition action_ids result
    = transform_actions_loop self i condition action_ids result.
Proof.
  induction action_ids as [ | action_id rest IH ]; intros result; [ reflexivity | ].
  cbn [transform_actions_loop]. change (actions_map (with_indicators_map self other)) with (actions_map self).
  destruct (dict_get_none (actions_map self) action_id) as [action | ]; cbn [bind];
    [ | reflexivity ].
  destruct (truthy action); [ | apply IH ].
  change (_transform_action (with_indicators_map self other) action) with (_transform_action self action).
  destruct (_transform_action self action); cbn [bind]; [ apply IH | reflexivity ].
Qed.

Lemma transform_triggers_loop_indicators_map triggers :
  forall i result,
    transform_triggers_loop (with_indicators_map self other) i triggers result
    = transform_triggers_loop self i triggers result.
Proof.
  induction triggers as [ | trigger rest IH ]; intros i result; [ reflexivity | ].
  cbn [transform_triggers_loop]. rewrite _transform_trigger_conditions_indicators_map.
  destruct (_transform_trigger_conditions self trigger); cbn [bind]; [ | reflexivity ].
  destruct (get trigger "actions" (JArr [])); cbn [bind]; [ | reflexivity ].
  destruct (iter _); cbn [bind]; [ | reflexivity ].
  rewrite transform_actions_loop_indicators_map.
  destruct (transform_actions_loop self i _ _ result); cbn [bind]; [ apply IH | reflexivity ].
Qed.

End IndicatorsMap.

(** X19. [transform] never reads the indicator map that [__init__]
    builds: with any other map in its place it returns the same AST or
    raises the same exception.  In particular a condition may name an
    indicator that the configuration does not declare. *)
Theorem indicators_map_unused (self : StrategyTransformer) (other : Py.dict) :
  transform (with_indicators_map self other) = transform self.
Proof.
  unfold transform, _transform_indicators, _transform_triggers.
  change (strategy (with_indicators_map self other)) with (strategy self).
  change (symbol (with_indicators_map self other)) with (symbol self).
  destruct (bind (get (strategy self) "indicators" (JArr [])) _); cbn [bind];
    [ | reflexivity ].
  destruct (get (strategy self) "triggers" (JArr [])); cbn [bind]; [ | reflexivity ].
  destruct (iter _); cbn [bind]; [ | reflexivity ].
  now rewrite transform_triggers_loop_indicators_map.
Qed.

(** * The Normalizer against the documented lowering *)

Lemma list_of_Forall wf v :
  list_of wf v = true -> exists items, v = JArr items /\ Forall (fun x => wf x = true) items.
Proof.
  destruct v as [ | | | | items | ]; try discriminate. simpl. intros H.
  exists items. split; [ reflexivity | ]. apply Forall_forall. now apply forallb_forall.
Qed.

Lemma id_map_defined items :
  Forall (fun item => exists fields, item = JObj fields /\ has_id fields = true) items ->
  forall acc, exists m, id_map items acc = Ok m.
Proof.
  induction 1 as [ | item rest (fields & -> & Hid) _ IH ]; simpl; intros acc; [ eauto | ].
  unfold has_id in Hid.
  destruct (lookup "id" fields) as [id | ]; [ | discriminate ].
  simpl. rewrite Hid. apply IH.
Qed.

Lemma last_with_id_In k items :
  forall found a,
    last_with_id k items found = Some a -> In a items \/ found = Some a.
Proof.
  induction items as [ | item rest IH ]; simpl; intros found a H; [ now right | ].
  apply IH in H as [H | H]; [ left; now right | ].
  destruct (has_id_equal k item); [ injection H as <-; left; now left | now right ].
Qed.

Lemma op_map_get_token operator :
  hashable operator = true ->
  exists op,
    op_map_get operator ComparisonOp.GREATER_THAN = Ok op
    /\ ComparisonOp.value op = JStr (Documented.token_operator operator).
Proof.
  unfold op_map_get, Documented.token_operator. intros ->. eexists. split; [ reflexivity | ].
  cbn [op_map_find op_map].
  destruct (str_eq operator "<"); [ reflexivity | ].
  destruct (str_eq operator ">"); [ reflexivity | ].
  destruct (str_eq operator "<="); [ reflexivity | ].
  destruct (str_eq operator ">="); [ reflexivity | ].
  destruct (str_eq operator "=="); [ reflexivity | ].
  destruct (str_eq operator "!="); reflexivity.
Qed.

Lemma comparison_node_documented l op name r :
  ComparisonOp.value op = JStr name ->
  comparison_node l op r = Documented.comparison l name r.
Proof.
  unfold comparison_node, Documented.comparison. now intros ->.
Qed.

Lemma group_documented op operands :
  group op operands
  = Documented.logical (match op with LogicalOp.AND => "AND" | LogicalOp.OR => "OR" end)
                       operands.
Proof.
  destruct op, operands as [ | x [ | y rest ] ]; reflexivity.
Qed.

Section Refinement.
Variable self : StrategyTransformer.

Lemma typed_conditions_documented params :
  hashable (lookup_default params "operator" JNull) = true ->
  _transform_price_condition self (JObj params)
  = Ok (Documented.price_move (symbol self) params)
  /\ _transform_indicator_comparison self (JObj params)
     = Ok (Documented.indicator_comparison params)
  /\ _transform_indicator_event self (JObj params)
     = Ok (Documented.indicator_event params)
  /\ _transform_price_comparison self (JObj params)
     = Ok (Documented.price_comparison (symbol self) params).
Proof.
  intros Hop.
  assert (Hop' : hashable (lookup_default params "operator" (JStr ">")) = true).
  { unfold lookup_default in *. now destruct (lookup "operator" params). }
  destruct (op_map_get_token _ Hop) as (op & Hget & Hvalue).
  destruct (op_map_get_token _ Hop') as (op' & Hget' & Hvalue').
  unfold _transform_price_condition, _transform_indicator_comparison,
    _transform_indicator_event, _transform_price_comparison, get,
    Documented.price_move, Documented.indicator_comparison,
    Documented.indicator_event, Documented.price_comparison.
  cbn [bind]. cbv zeta. repeat split.
  - destruct (str_eq (lookup_default params "event_type" (JStr "")) "cross").
    + unfold Documented.word_operator.
      destruct (str_eq _ "below"); [ reflexivity | ].
      destruct (str_eq _ "above"); reflexivity.
    + unfold Documented.word_operator.
      destruct (lookup_default params "event_type" (JStr "")) as [ | | | s | | ];
        try reflexivity.
      unfold str_eq. destruct (String.eqb_spec s "above") as [-> | _]; [ reflexivity | ].
      destruct (s =? "below"); reflexivity.
  - rewrite Hget'. cbn [bind]. f_equal.
    rewrite (comparison_node_documented _ _ _ _ Hvalue'). f_equal.
    destruct (truthy _); [ reflexivity | ].
    destruct (lookup_default params "value" JNull); reflexivity.
  - destruct (str_eq (lookup_default params "event_type" (JStr "")) "cross").
    { destruct (str_eq _ "above"); [ reflexivity | ].
      destruct (str_eq _ "below"); reflexivity. }
    destruct (_ || _); [ reflexivity | ].
    destruct (_ || _); [ reflexivity | ].
    destruct (truthy _); [ | reflexivity ].
    rewrite Hget. cbn [bind]. f_equal. now apply comparison_node_documented.
  - rewrite Hget'. cbn [bind]. f_equal. now apply comparison_node_documented.
Qed.

Lemma condition_documented c :
  (wf_condition c = true ->
   _transform_condition self c = Ok (Documented.condition (symbol self) c))
  /\ (forall items, c = JArr items -> forallb wf_condition items = true ->
      lower_members (_transform_condition self) c
      = Ok (map (Documented.condition (symbol self)) items)).
Proof.
  induction c as [ | b | n | s | items IH | fields IH ] using json_ind;
    try (split; [ discriminate | intros items; discriminate ]).
  - split; [ discriminate | ].
    intros items' [= <-] Hwf. simpl.
    rewrite forallb_forall in Hwf. rewrite Forall_forall in IH.
    assert (Hall : forall x, In x items ->
                             _transform_condition self x
                             = Ok (Documented.condition (symbol self) x)).
    { intros x Hx. exact (proj1 (IH x Hx) (Hwf x Hx)). }
    clear IH Hwf. induction items as [ | x xs IHxs ]; simpl; [ reflexivity | ].
    rewrite (Hall x (or_introl eq_refl)). cbn [bind].
    rewrite IHxs by (intros y Hy; apply Hall; now right). reflexivity.
  - split; [ | intros items; discriminate ].
    cbn [wf_condition _transform_condition Documented.condition]. intros Hwf.
    apply andb_prop in Hwf as [Hparams Hgroups].
    destruct (lookup_default fields "params" (JObj [])) as [ | | | | | pf ];
      try discriminate.
    cbn [Documented.fields_of]. cbn [wf_params] in Hparams.
    destruct (typed_conditions_documented pf Hparams) as (H1 & H2 & H3 & H4).
    destruct (str_eq _ "price_move"); [ exact H1 | ].
    destruct (str_eq _ "indicator_comparison"); [ exact H2 | ].
    destruct (str_eq _ "indicator_event"); [ exact H3 | ].
    destruct (str_eq _ "price_comparison"); [ exact H4 | ].
    rewrite !find_lookup in Hgroups. rewrite !find_lookup.
    destruct (lookup "and" fields) as [members | ] eqn:Eand; cbn [option_map] in *.
    { destruct members as [ | | | | items | ]; try discriminate.
      destruct (proj1 (Forall_forall _ _) IH _ (lookup_In _ _ _ Eand)) as [_ Hm].
      cbn [snd] in Hm. rewrite (Hm items eq_refl Hgroups). cbn [bind].
      now rewrite group_documented. }
    destruct (lookup "or" fields) as [members | ] eqn:Eor; cbn [option_map] in *.
    { destruct members as [ | | | | items | ]; try discriminate.
      destruct (proj1 (Forall_forall _ _) IH _ (lookup_In _ _ _ Eor)) as [_ Hm].
      cbn [snd] in Hm. rewrite (Hm items eq_refl Hgroups). cbn [bind].
      now rewrite group_documented. }
    reflexivity.
Qed.

Lemma trigger_documented trigger :
  wf_condition trigger = true ->
  _transform_trigger_conditions self trigger
  = Ok (Documented.trigger_condition (symbol self) trigger).
Proof.
  intros Hwf. destruct trigger as [ | | | | | fields ]; try discriminate.
  unfold _transform_trigger_conditions, Documented.trigger_condition.
  cbn [contains getitem bind iter Documented.fields_of].
  pose proof Hwf as Hwf'. cbn [wf_condition] in Hwf'.
  apply andb_prop in Hwf' as [_ Hgroups]. rewrite !find_lookup in Hgroups.
  destruct (lookup "and" fields) as [members | ] eqn:Eand; cbn [option_map bind] in *.
  { destruct members as [ | | | | items | ]; try discriminate.
    rewrite (proj2 (condition_documented (JArr items)) items eq_refl Hgroups).
    cbn [bind]. now rewrite group_documented. }
  destruct (lookup "or" fields) as [members | ] eqn:Eor; cbn [option_map bind] in *.
  { destruct members as [ | | | | items | ]; try discriminate.
    rewrite (proj2 (condition_documented (JArr items)) items eq_refl Hgroups).
    cbn [bind]. now rewrite group_documented. }
  rewrite <- (proj1 (condition_documented (JObj fields)) Hwf).
  destruct (existsb not_reserved _) eqn:Ekeys; [ reflexivity | ].
  symmetry. apply untyped_plain_condition; auto using reserved_keys_no_type.
Qed.

Lemma action_documented a :
  wf_action a = true ->
  _transform_action self a = Ok (Documented.action (symbol self) a).
Proof.
  destruct a as [ | | | | | fields ]; try discriminate.
  unfold wf_action, _transform_action, Documented.action. intros Hwf.
  apply andb_prop in Hwf as [Hwf Horder]. apply andb_prop in Hwf as [Hwf Hdirection].
  apply andb_prop in Hwf as [_ Htype].
  unfold get at 1 2 3 5 7 8. cbn [bind Documented.fields_of]. cbv zeta in *.
  destruct (lookup_default fields "type" (JStr "")) as [ | | | ty | | ];
    try discriminate.
  destruct (lookup_default fields "order" (JObj [])) as [ | | | | | order ];
    try discriminate.
  cbn [get bind Documented.fields_of].
  destruct (lookup_default order "type" (JStr "market")) as [ | | | oty | | ];
    try discriminate.
  cbn [upper bind Documented.text_of].
  assert (Hdir : (if truthy (lookup_default fields "direction" (JStr ""))
                  then upper (lookup_default fields "direction" (JStr ""))
                  else Ok (JStr "LONG"))
                 = Ok (JStr (if truthy (lookup_default fields "direction" (JStr ""))
                             then upper_str (Documented.text_of
                                               (lookup_default fields "direction" (JStr "")))
                             else "LONG"))).
  { destruct (truthy _); [ | reflexivity ]. simpl in Hdirection.
    destruct (lookup_default fields "direction" (JStr "")); try discriminate.
    reflexivity. }
  destruct (str_eq (JStr ty) "entry"); cbn [bind]; [ now rewrite Hdir | ].
  destruct (str_eq (JStr ty) "exit"); cbn [bind upper]; now rewrite Hdir.
Qed.

Variable actions : list json.
Hypothesis actions_wf : Forall (fun a => wf_action a = true) actions.
Hypothesis actions_map_lookup :
  forall k, dict_get (actions_map self) k = last_with_id k actions None.

Lemma actions_loop_documented i trigger condition action_ids :
  condition = Documented.trigger_condition (symbol self) trigger ->
  forallb hashable action_ids = true ->
  forall result,
    transform_actions_loop self i condition action_ids result
    = Ok (result
          ++ flat_map
               (fun action_id =>
                  match last_with_id action_id actions None with
                  | Some a =>
                      [JObj [("type", JStr "Rule");
                             ("name", JStr (Documented.name_of_rule i action_id));
                             ("condition",
                              Documented.trigger_condition (symbol self) trigger);
                             ("action", Documented.action (symbol self) a)]]
                  | None => []
                  end)
               action_ids)%list.
Proof.
  intros ->.
  induction action_ids as [ | action_id rest IH ]; intros Hids result.
  - simpl. now rewrite app_nil_r.
  - cbn [forallb] in Hids. apply andb_prop in Hids as [Hid Hrest].
    cbn [transform_actions_loop flat_map]. unfold dict_get_none. rewrite Hid.
    cbn [bind]. rewrite actions_map_lookup.
    destruct (last_with_id action_id actions None) as [a | ] eqn:Elast.
    + assert (Hwf : wf_action a = true).
      { apply last_with_id_In in Elast as [Hin | ?]; [ | discriminate ].
        exact (proj1 (Forall_forall _ _) actions_wf _ Hin). }
      assert (Htruthy : truthy a = true).
      { destruct a as [ | | | | | [ | kv kvs ] ]; try discriminate; reflexivity. }
      rewrite Htruthy, (action_documented a Hwf). cbn [bind].
      rewrite (IH Hrest). unfold append. now rewrite <- app_assoc.
    + cbn [truthy]. now rewrite (IH Hrest).
Qed.

Lemma triggers_loop_documented triggers :
  forallb wf_trigger triggers = true ->
  forall i result,
    transform_triggers_loop self i triggers result
    = Ok (result ++ Documented.rules_from (symbol self) actions i triggers)%list.
Proof.
  induction triggers as [ | trigger rest IH ]; intros Hwf i result.
  - simpl. now rewrite app_nil_r.
  - cbn [forallb] in Hwf. apply andb_prop in Hwf as [Htrigger Hrest].
    unfold wf_trigger in Htrigger. apply andb_prop in Htrigger as [Hcondition Hactions].
    cbn [transform_triggers_loop Documented.rules_from].
    rewrite (trigger_documented trigger Hcondition). cbn [bind].
    destruct trigger as [ | | | | | fields ]; try discriminate.
    cbn [get bind]. unfold Documented.rules_of_trigger. cbn [Documented.fields_of].
    destruct (lookup_default fields "actions" (JArr [])) as [ | | | | ids | ];
      try discriminate.
    cbn [iter bind Documented.items_of].
    rewrite (actions_loop_documented i (JObj fields) _ ids eq_refl Hactions).
    cbn [bind]. rewrite (IH Hrest). now rewrite <- app_assoc.
Qed.

End Refinement.

Lemma indicators_loop_documented items :
  Forall (fun item => wf_indicator item = true) items ->
  forall result,
    transform_indicators_loop items result
    = Ok (result ++ map Documented.indicator items)%list.
Proof.
  induction 1 as [ | item rest Hitem _ IH ]; intros result.
  - simpl. now rewrite app_nil_r.
  - destruct item as [ | | | | | fields ]; try discriminate.
    unfold wf_indicator, has_id in Hitem. apply andb_prop in Hitem as [Hid Hty].
    cbn [transform_indicators_loop map]. unfold transform_indicator, Documented.indicator.
    cbn [getitem get Documented.fields_of]. unfold lookup_default at 2 3.
    destruct (lookup "id" fields) as [id | ]; [ | discriminate ].
    destruct (lookup "type" fields) as [ [ | | | ty | | ] | ]; try discriminate.
    cbn [bind upper Documented.text_of]. rewrite IH. unfold append.
    now rewrite <- app_assoc.
Qed.

Lemma symbol_documented fields :
  wf_symbols (lookup_default fields "symbols" JNull) = true ->
  (if truthy (lookup_default fields "symbols" JNull)
   then s <- getitem (JObj fields) "symbols" ;; first s
   else Ok (JStr "UNKNOWN"))
  = Ok (Documented.symbol_of (lookup_default fields "symbols" JNull)).
Proof.
  unfold wf_symbols, lookup_default, getitem.
  destruct (lookup "symbols" fields) as [symbols | ]; [ | reflexivity ].
  destruct symbols as [ | [] | n | [ | c s] | [ | x xs] | [ | kv kvs] ];
    try reflexivity; try discriminate.
  simpl. destruct (n =? 0)%Z; [ reflexivity | discriminate ].
Qed.


